(** * The chapter validator of crew.py

    A shallow embedding of [validate_chapters] (crew.py, lines 13-22) and of
    the Python built-ins it calls, followed by the properties of the
    validator stated in the specification and further properties read off
    the code (X1-X12).

    Modelling conventions.
    - A Python [str] is a sequence of Unicode code points: [pystr] is a list
      of code points, a code point is an [N].
    - A Python [int] is unbounded: the four bounds, [len] results compared
      with them and the loop index are [Z].
    - A call that can raise returns a [result]; [str.split(sep)] raises
      [ValueError] on an empty separator.
    - Rendering an [int] in an f-string raises [ValueError] when the int has
      more than 4300 decimal digits, the interpreter's default limit on
      int-to-str conversion ([sys.int_info.default_max_str_digits]).
    - No [str] is longer than [sys.maxsize]; theorems that need it take it as
      a hypothesis on the text. Running out of memory is not modelled. *)

From Equations Require Import Equations.
From Stdlib Require Import List Bool Arith NArith ZArith Lia.
From Stdlib Require Import Ascii String DecimalString DecimalZ.
Import ListNotations.

(** ** Results of calls that may raise *)

Inductive exn : Type :=
| ValueError (msg : string).

Inductive result (A : Type) : Type :=
| Ok (a : A)
| Raise (e : exn).

Arguments Ok {A} a.
Arguments Raise {A} e.

Definition bind {A B : Type} (r : result A) (k : A -> result B) : result B :=
  match r with
  | Ok a => k a
  | Raise e => Raise e
  end.

Notation "x <- r ;; k" := (bind r (fun x => k))
  (at level 61, r at next level, right associativity).

(** ** Python strings *)

Module Py.

Definition codepoint : Type := N.
Definition pystr : Type := list codepoint.

(** An ASCII literal of the source, as code points. *)
Definition lit (s : string) : pystr :=
  List.map N_of_ascii (list_ascii_of_string s).

(** [str.isspace] on one code point; this is also the set that [str.strip()]
    and [str.split()] (no separator) treat as whitespace. *)
Definition isspace (c : codepoint) : bool :=
  ((0x09 <=? c) && (c <=? 0x0D) ||
   (0x1C <=? c) && (c <=? 0x20) ||
   (c =? 0x85) || (c =? 0xA0) || (c =? 0x1680) ||
   (0x2000 <=? c) && (c <=? 0x200A) ||
   (c =? 0x2028) || (c =? 0x2029) || (c =? 0x202F) ||
   (c =? 0x205F) || (c =? 0x3000))%N.

(** Truth value of a [str] in a condition: non-empty. *)
Definition truthy (s : pystr) : bool :=
  match s with
  | [] => false
  | _ :: _ => true
  end.

(** [len(x)] as a Python int. *)
Definition len {A : Type} (l : list A) : Z := Z.of_nat (List.length l).

(** [s.startswith(prefix)]. *)
Fixpoint startswith (s prefix : pystr) {struct prefix} : bool :=
  match prefix, s with
  | [], _ => true
  | _ :: _, [] => false
  | p :: prefix', c :: s' => (c =? p)%N && startswith s' prefix'
  end.

(** [s.find(sub)]: the lowest index where [sub] starts, [None] for -1. *)
Fixpoint find (s sub : pystr) : option nat :=
  if startswith s sub then Some 0%nat
  else match s with
       | [] => None
       | _ :: s' => option_map S (find s' sub)
       end.

(** A value together with the equation that names it, so that a [with] clause
    keeps the link between [find s sep] and its result. *)
Definition inspect {A : Type} (a : A) : {b : A | a = b} := exist _ a eq_refl.

(** The loop of [s.split(sep)] for a non-empty [sep]: cut at the first
    occurrence, go on after it, the last piece is what remains. *)
Equations? split_loop (s sep : pystr) : list pystr by wf (List.length s) lt :=
  split_loop s sep with inspect (find s sep) => {
    | exist _ None _ := [s];
    | exist _ (Some pos) Hfind with sep => {
        | [] := [s];
        | c :: sep' :=
            firstn pos s ::
            split_loop (skipn (pos + List.length (c :: sep')) s) (c :: sep') } }.
Proof.
  destruct s as [|d s].
  - simpl in Hfind. discriminate.
  - rewrite length_skipn. cbn [List.length]. lia.
Qed.

(** [s.split(sep)]. *)
Definition split (s sep : pystr) : result (list pystr) :=
  match sep with
  | [] => Raise (ValueError "empty separator")
  | _ :: _ => Ok (split_loop s sep)
  end.

(** [s.lstrip()], [s.rstrip()], [s.strip()]. *)
Fixpoint lstrip (s : pystr) : pystr :=
  match s with
  | [] => []
  | c :: s' => if isspace c then lstrip s' else s
  end.

Definition rstrip (s : pystr) : pystr := rev (lstrip (rev s)).

Definition strip (s : pystr) : pystr := rstrip (lstrip s).

(** The scan of [s.split()] (no separator): [cur] is the word being read,
    last character first; runs of whitespace separate words and produce no
    empty word. *)
Fixpoint split_whitespace_from (cur s : pystr) : list pystr :=
  match s with
  | [] =>
      match cur with
      | [] => []
      | _ :: _ => [rev cur]
      end
  | c :: s' =>
      if isspace c then
        match cur with
        | [] => split_whitespace_from [] s'
        | _ :: _ => rev cur :: split_whitespace_from [] s'
        end
      else split_whitespace_from (c :: cur) s'
  end.

Definition split_whitespace (s : pystr) : list pystr :=
  split_whitespace_from [] s.

(** The decimal digits of an int, a minus sign in front when negative. *)
Definition decimal (n : Z) : pystr :=
  lit (NilZero.string_of_int (Z.to_int n)).

(** [sys.int_info.default_max_str_digits]. *)
Definition MAX_STR_DIGITS : Z := 4300.

(** The least magnitude with more than [MAX_STR_DIGITS] digits. *)
Definition INT_STR_LIMIT : Z := 10 ^ MAX_STR_DIGITS.

(** What int-to-str conversion raises above the limit. *)
Definition DIGITS_ERROR : exn :=
  ValueError "Exceeds the limit (4300 digits) for integer string conversion".

(** [str(n)] / [f"{n}"] for an int: the digits, unless there are more than
    [MAX_STR_DIGITS] of them (the sign not counted). *)
Definition str_of_int (n : Z) : result pystr :=
  if (Z.abs n <? INT_STR_LIMIT)%Z then Ok (decimal n) else Raise DIGITS_ERROR.

(** [sys.maxsize] of a 64-bit build: the greatest length of a [str]. *)
Definition PY_SSIZE_T_MAX : Z := 2 ^ 63 - 1.

(** [enumerate(l, start)]. *)
Fixpoint enumerate {A : Type} (l : list A) (start : Z) : list (Z * A) :=
  match l with
  | [] => []
  | a :: l' => (start, a) :: enumerate l' (start + 1)
  end.

End Py.

Import Py.

(** ** crew.py *)

Module Crew.

(** The separator literal of line 14. *)
Definition CHAPTER : pystr := lit "Chapter".

(** U+274C CROSS MARK, the first character of both f-strings (lines 16, 21). *)
Definition CROSS_MARK : codepoint := 0x274C%N.

(** Line 14: [[c for c in output.split("Chapter") if c.strip()]]. *)
Definition chapters_of (output : pystr) : result (list pystr) :=
  parts <- split output CHAPTER ;;
  Ok (filter (fun c => truthy (strip c)) parts).

(** Line 19: [len(chapter.split())]. *)
Definition word_count (chapter : pystr) : Z := len (split_whitespace chapter).

(** Lines 18-21: the loop over [enumerate(chapters, 1)], given the pairs still
    to visit; [Ok (Some msg)] is the [return] of line 21, [Ok None] is the
    loop running to its end, [Raise] is the f-string of line 21 failing on
    one of its four fields, taken from left to right. *)
Fixpoint check_words (pairs : list (Z * pystr)) (min_words max_words : Z)
  : result (option pystr) :=
  match pairs with
  | [] => Ok None
  | (i, chapter) :: rest =>
      let word_count := word_count chapter in
      if ((word_count <? min_words) || (word_count >? max_words))%Z then
        (i_text <- str_of_int i ;;
         word_count_text <- str_of_int word_count ;;
         min_words_text <- str_of_int min_words ;;
         max_words_text <- str_of_int max_words ;;
         Ok (Some (CROSS_MARK :: lit " Chapter " ++ i_text ++ lit " has "
                     ++ word_count_text
                     ++ lit " words. Please rewrite with " ++ min_words_text
                     ++ lit "-" ++ max_words_text ++ lit " words.")))
      else check_words rest min_words max_words
  end.

(** Lines 13-22. *)
Definition validate_chapters (output : pystr)
    (min_chapters max_chapters min_words max_words : Z) : result pystr :=
  chapters <- chapters_of output ;;
  if ((len chapters <? min_chapters) || (len chapters >? max_chapters))%Z then
    (count_text <- str_of_int (len chapters) ;;
     min_chapters_text <- str_of_int min_chapters ;;
     max_chapters_text <- str_of_int max_chapters ;;
     Ok (CROSS_MARK :: lit " Found " ++ count_text
           ++ lit " chapters. Please rewrite with " ++ min_chapters_text
           ++ lit "-" ++ max_chapters_text ++ lit " chapters."))
  else
    (returned <- check_words (enumerate chapters 1) min_words max_words ;;
     match returned with
     | Some message => Ok message
     | None => Ok output
     end).

(** The default values of the keyword parameters (line 13). *)
Definition DEFAULT_MIN_CHAPTERS : Z := 8.
Definition DEFAULT_MAX_CHAPTERS : Z := 10.
Definition DEFAULT_MIN_WORDS : Z := 300.
Definition DEFAULT_MAX_WORDS : Z := 400.

(** [validate_chapters(output)]: every bound left to its default. *)
Definition validate_chapters_default (output : pystr) : result pystr :=
  validate_chapters output DEFAULT_MIN_CHAPTERS DEFAULT_MAX_CHAPTERS
    DEFAULT_MIN_WORDS DEFAULT_MAX_WORDS.

End Crew.

Import Crew.

(** ** Vocabulary of the specification *)

(** [sub] occurs in [s] as a substring. *)
Definition occurs (sub s : pystr) : Prop :=
  exists before after, s = before ++ sub ++ after.

(** [s] is empty or consists of whitespace only. *)
Definition blank (s : pystr) : Prop := forallb isspace s = true.

(** [lo <= x <= hi], both ends included. *)
Definition within (lo hi x : Z) : Prop := (lo <= x <= hi)%Z.

(** A chapter whose word count passes the test of line 20. *)
Definition words_ok (min_words max_words : Z) (chapter : pystr) : Prop :=
  within min_words max_words (word_count chapter).

(** [n] has at most [MAX_STR_DIGITS] decimal digits: an f-string renders
    it. *)
Definition renders (n : Z) : Prop := (Z.abs n < INT_STR_LIMIT)%Z.

(** The template of step 2, as the specification writes it:
    "Found {count} chapters. Please rewrite with {minChapters}-{maxChapters}
    chapters." *)
Definition count_template (count min_chapters max_chapters : Z) : pystr :=
  lit "Found " ++ decimal count ++ lit " chapters. Please rewrite with "
    ++ decimal min_chapters ++ lit "-" ++ decimal max_chapters
    ++ lit " chapters.".

(** The template of step 3, as the specification writes it:
    "Chapter {index} has {wordCount} words. Please rewrite with
    {minWords}-{maxWords} words." *)
Definition words_template (index wordCount min_words max_words : Z) : pystr :=
  lit "Chapter " ++ decimal index ++ lit " has " ++ decimal wordCount
    ++ lit " words. Please rewrite with " ++ decimal min_words
    ++ lit "-" ++ decimal max_words ++ lit " words.".

(** What the code puts before either template: the cross mark and a space. *)
Definition REJECT_PREFIX : pystr := CROSS_MARK :: lit " ".

(** What follows "Chapter" in the message of line 21. *)
Definition words_message_tail (index wordCount lo hi : Z) : pystr :=
  lit " " ++ decimal index ++ lit " has " ++ decimal wordCount
    ++ lit " words. Please rewrite with " ++ decimal lo
    ++ lit "-" ++ decimal hi ++ lit " words.".

(** The f-string of line 16, field by field. *)
Definition count_message (count min_chapters max_chapters : Z)
  : result pystr :=
  count_text <- str_of_int count ;;
  min_chapters_text <- str_of_int min_chapters ;;
  max_chapters_text <- str_of_int max_chapters ;;
  Ok (CROSS_MARK :: lit " Found " ++ count_text
        ++ lit " chapters. Please rewrite with " ++ min_chapters_text
        ++ lit "-" ++ max_chapters_text ++ lit " chapters.").

(** The f-string of line 21, field by field. *)
Definition words_message (index wordCount min_words max_words : Z)
  : result pystr :=
  index_text <- str_of_int index ;;
  word_count_text <- str_of_int wordCount ;;
  min_words_text <- str_of_int min_words ;;
  max_words_text <- str_of_int max_words ;;
  Ok (CROSS_MARK :: lit " Chapter " ++ index_text ++ lit " has "
        ++ word_count_text
        ++ lit " words. Please rewrite with " ++ min_words_text
        ++ lit "-" ++ max_words_text ++ lit " words.").

(** Sample texts: [k] chapters of [n] one-letter words each. *)
Definition words (n : nat) : pystr := List.concat (repeat (lit " w") n).
Definition book (k n : nat) : pystr :=
  List.concat (repeat (CHAPTER ++ words n) k).

(** A text of three fragments of two, three and three words. *)
Definition sample_three : pystr :=
  lit "Chapter a b Chapter c d e Chapter f g h".

(** The fragments of [sample_three]. *)
Definition sample_three_chapters : list pystr :=
  [lit " a b "; lit " c d e "; lit " f g h"].

(** [sep.join(parts)]: the pieces with [sep] between neighbours. *)
Fixpoint join (sep : pystr) (parts : list pystr) : pystr :=
  match parts with
  | [] => []
  | [p] => p
  | p :: rest => p ++ sep ++ join sep rest
  end.

(** A text laid out as the drafting task asks: each body preceded by the
    label "Chapter". *)
Definition manuscript (bodies : list pystr) : pystr :=
  List.concat (List.map (fun body => CHAPTER ++ body) bodies).

(** ** Lemmas on the string operations *)

Section StringLemmas.

Lemma startswith_app (p r : pystr) : startswith (p ++ r) p = true.
Proof.
  induction p as [|c p IH]; simpl.
  - reflexivity.
  - rewrite N.eqb_refl, IH. reflexivity.
Qed.

Lemma startswith_true (s p : pystr) :
  startswith s p = true -> exists r, s = p ++ r.
Proof.
  revert s. induction p as [|c p IH]; intros s H.
  - exists s. reflexivity.
  - destruct s as [|d s]; simpl in H; [discriminate|].
    apply andb_true_iff in H. destruct H as [Hc Hs].
    apply N.eqb_eq in Hc. subst d.
    destruct (IH _ Hs) as [r ->]. exists r. reflexivity.
Qed.

Lemma occurs_cons (sub s : pystr) (c : codepoint) :
  occurs sub s -> occurs sub (c :: s).
Proof.
  intros (l & r & ->). exists (c :: l), r. reflexivity.
Qed.

Lemma find_none (s sub : pystr) : ~ occurs sub s -> find s sub = None.
Proof.
  induction s as [|c s IH]; intros Hno; simpl.
  - destruct (startswith [] sub) eqn:E; [|reflexivity].
    exfalso. apply Hno. apply startswith_true in E.
    destruct E as [r E]. exists [], r. exact E.
  - destruct (startswith (c :: s) sub) eqn:E.
    + exfalso. apply Hno. apply startswith_true in E.
      destruct E as [r E]. exists [], r. exact E.
    + rewrite IH; [reflexivity|].
      intros Hs. apply Hno. apply occurs_cons. exact Hs.
Qed.

Lemma find_here (s sub : pystr) :
  startswith s sub = true -> find s sub = Some 0%nat.
Proof.
  intros H. destruct s; simpl; rewrite H; reflexivity.
Qed.

Lemma find_later (c : codepoint) (s sub : pystr) :
  startswith (c :: s) sub = false ->
  find (c :: s) sub = option_map S (find s sub).
Proof.
  intros H. simpl find. rewrite H. reflexivity.
Qed.

Lemma find_none_not_occurs (s sub : pystr) :
  find s sub = None -> ~ occurs sub s.
Proof.
  intros Hf (before & after & ->). revert Hf.
  induction before as [|c before IH]; intros Hf.
  - cbn [app] in Hf.
    rewrite (find_here _ _ (startswith_app sub after)) in Hf. discriminate.
  - cbn [app find] in Hf.
    destruct (startswith (c :: before ++ sub ++ after) sub); [discriminate|].
    destruct (find (before ++ sub ++ after) sub); [discriminate|].
    apply IH. reflexivity.
Qed.

(** A blank prefix holds no start of the separator "Chapter": the first
    occurrence in [ws ++ "Chapter" ++ rest] is right after [ws]. *)
Lemma find_after_blank (ws rest : pystr) :
  blank ws -> find (ws ++ CHAPTER ++ rest) CHAPTER = Some (List.length ws).
Proof.
  unfold blank. induction ws as [|c ws IH]; intros Hb.
  - apply find_here. apply (startswith_app CHAPTER rest).
  - cbn [forallb] in Hb. apply andb_true_iff in Hb. destruct Hb as [Hc Hws].
    cbn [app List.length]. rewrite find_later.
    + rewrite (IH Hws). reflexivity.
    + change CHAPTER with (67%N :: lit "hapter").
      cbn [startswith]. destruct (N.eqb_spec c 67) as [->|_].
      * discriminate Hc.
      * reflexivity.
Qed.

Lemma split_loop_none (s sep : pystr) :
  find s sep = None -> split_loop s sep = [s].
Proof.
  intros Hf. rewrite split_loop_equation_1.
  destruct (inspect (find s sep)) as [[pos|] H].
  - congruence.
  - reflexivity.
Qed.

Lemma split_loop_some (s sep : pystr) (pos : nat) :
  sep <> [] ->
  find s sep = Some pos ->
  split_loop s sep =
  firstn pos s :: split_loop (skipn (pos + List.length sep) s) sep.
Proof.
  intros Hsep Hf. destruct sep as [|c sep']; [congruence|].
  rewrite split_loop_equation_1.
  destruct (inspect (find s (c :: sep'))) as [[pos'|] H].
  - assert (pos' = pos) by congruence. subst pos'. reflexivity.
  - congruence.
Qed.

Lemma CHAPTER_not_nil : CHAPTER <> [].
Proof. discriminate. Qed.

Lemma split_loop_after_blank (ws rest : pystr) :
  blank ws ->
  split_loop (ws ++ CHAPTER ++ rest) CHAPTER = ws :: split_loop rest CHAPTER.
Proof.
  intros Hb.
  rewrite (split_loop_some _ _ _ CHAPTER_not_nil (find_after_blank _ rest Hb)).
  rewrite firstn_app, Nat.sub_diag, firstn_all. cbn [firstn]. rewrite app_nil_r.
  rewrite app_assoc, <- length_app, skipn_app, skipn_all, Nat.sub_diag.
  reflexivity.
Qed.

Lemma lstrip_nil_iff (s : pystr) : lstrip s = [] <-> blank s.
Proof.
  unfold blank. induction s as [|c s IH]; simpl.
  - tauto.
  - destruct (isspace c); simpl.
    + exact IH.
    + split; discriminate.
Qed.

Lemma blank_lstrip (s : pystr) : blank (lstrip s) -> blank s.
Proof.
  unfold blank. induction s as [|c s IH]; simpl; intros H.
  - reflexivity.
  - destruct (isspace c) eqn:E; simpl.
    + apply IH. exact H.
    + simpl in H. rewrite E in H. discriminate.
Qed.

Lemma blank_rev (s : pystr) : blank (rev s) <-> blank s.
Proof.
  unfold blank. rewrite !forallb_forall.
  split; intros H c Hc; apply H.
  - apply in_rev in Hc. exact Hc.
  - apply in_rev. exact Hc.
Qed.

Lemma strip_nil_iff (s : pystr) : strip s = [] <-> blank s.
Proof.
  unfold strip, rstrip. split.
  - intros H. apply blank_lstrip. apply blank_rev. apply lstrip_nil_iff.
    apply (f_equal (@rev codepoint)) in H. rewrite rev_involutive in H.
    exact H.
  - intros H. apply lstrip_nil_iff in H. rewrite H. reflexivity.
Qed.

Lemma truthy_strip_false (s : pystr) : truthy (strip s) = false <-> blank s.
Proof.
  rewrite <- strip_nil_iff. destruct (strip s); simpl; split;
    intros; congruence.
Qed.

Lemma truthy_strip_true (s : pystr) : truthy (strip s) = true <-> ~ blank s.
Proof.
  rewrite <- truthy_strip_false. destruct (truthy (strip s)); split;
    intros; congruence.
Qed.

End StringLemmas.

(** ** Lemmas on the cuts of a split *)

Section SplitPieces.

Variable sep : pystr.
Hypothesis sep_not_nil : sep <> [].

Lemma find_some_cut (s : pystr) (pos : nat) :
  find s sep = Some pos ->
  s = firstn pos s ++ sep ++ skipn (pos + List.length sep) s.
Proof.
  revert pos. induction s as [|c s IH]; intros pos Hf.
  - cbn [find] in Hf. destruct (startswith [] sep) eqn:E; [|discriminate].
    injection Hf as <-. apply startswith_true in E. destruct E as [r E].
    rewrite E at 1. cbn [firstn app Nat.add]. rewrite E, skipn_app, skipn_all.
    rewrite Nat.sub_diag. reflexivity.
  - cbn [find] in Hf. destruct (startswith (c :: s) sep) eqn:E.
    + injection Hf as <-. apply startswith_true in E. destruct E as [r E].
      rewrite E at 1. cbn [firstn app Nat.add].
      rewrite E, skipn_app, skipn_all, Nat.sub_diag. reflexivity.
    + destruct (find s sep) as [p|] eqn:Ep; [|discriminate].
      cbn [option_map] in Hf. injection Hf as <-.
      cbn [firstn Nat.add skipn app]. f_equal. apply IH. reflexivity.
Qed.

Lemma find_some_le (before after : pystr) :
  exists p, find (before ++ sep ++ after) sep = Some p
            /\ (p <= List.length before)%nat.
Proof.
  induction before as [|c before IH].
  - exists 0%nat. split; [|apply Nat.le_refl].
    apply find_here. apply (startswith_app sep after).
  - destruct IH as (p & Hp & Hle). cbn [app].
    destruct (startswith (c :: before ++ sep ++ after) sep) eqn:E.
    + exists 0%nat. split; [apply find_here; exact E|apply Nat.le_0_l].
    + exists (S p). split.
      * rewrite (find_later _ _ _ E), Hp. reflexivity.
      * cbn [List.length]. lia.
Qed.

(** No occurrence of the separator lies before the one [find] returns. *)
Lemma find_some_first (s : pystr) (pos : nat) :
  find s sep = Some pos -> ~ occurs sep (firstn pos s).
Proof.
  intros Hf (l & r & Hl).
  pose proof (find_some_cut s pos Hf) as Hcut.
  rewrite Hl in Hcut. rewrite <- !app_assoc in Hcut.
  destruct (find_some_le l (r ++ sep ++ skipn (pos + List.length sep) s))
    as (p & Hp & Hle).
  rewrite <- Hcut, Hf in Hp. injection Hp as <-.
  apply (f_equal (@List.length codepoint)) in Hl.
  rewrite !length_app, length_firstn in Hl.
  destruct sep as [|c sep']; [congruence|]. cbn [List.length] in Hl. lia.
Qed.

Lemma skipn_after_find_shorter (s : pystr) (pos : nat) :
  find s sep = Some pos ->
  (List.length (skipn (pos + List.length sep) s) < List.length s)%nat.
Proof.
  intros Hf. destruct s as [|c s].
  - cbn [find] in Hf. destruct (startswith [] sep) eqn:E; [|discriminate].
    apply startswith_true in E. destruct E as [r E].
    destruct sep; [congruence|discriminate].
  - rewrite length_skipn. destruct sep as [|d sep']; [congruence|].
    cbn [List.length]. lia.
Qed.

(** Induction along the cuts of [split_loop]. *)
Lemma split_loop_cuts (P : pystr -> list pystr -> Prop) :
  (forall s, find s sep = None -> P s [s]) ->
  (forall s pos,
     find s sep = Some pos ->
     P (skipn (pos + List.length sep) s)
       (split_loop (skipn (pos + List.length sep) s) sep) ->
     P s (firstn pos s :: split_loop (skipn (pos + List.length sep) s) sep)) ->
  forall s, P s (split_loop s sep).
Proof.
  intros Hnone Hsome s.
  remember (List.length s) as n eqn:Hn. revert s Hn.
  induction n as [n IH] using lt_wf_ind. intros s ->.
  destruct (find s sep) as [pos|] eqn:Hf.
  - rewrite (split_loop_some s sep pos sep_not_nil Hf).
    apply (Hsome s pos Hf).
    apply (IH _ (skipn_after_find_shorter s pos Hf)). reflexivity.
  - rewrite (split_loop_none s sep Hf). apply Hnone. exact Hf.
Qed.

Lemma split_loop_join (s : pystr) :
  split_loop s sep <> [] /\ join sep (split_loop s sep) = s.
Proof.
  apply (split_loop_cuts (fun s parts => parts <> [] /\ join sep parts = s)).
  - intros s' _. split; [discriminate|reflexivity].
  - intros s' pos Hf [Hne Hjoin]. split; [discriminate|].
    destruct (split_loop (skipn (pos + List.length sep) s') sep) as [|p ps];
      [congruence|].
    cbn [join] in *. rewrite Hjoin. symmetry. apply find_some_cut. exact Hf.
Qed.

Lemma split_loop_pieces (s : pystr) :
  Forall (fun p => ~ occurs sep p) (split_loop s sep).
Proof.
  apply (split_loop_cuts (fun _ parts => Forall (fun p => ~ occurs sep p) parts)).
  - intros s' Hf. constructor; [|constructor].
    apply find_none_not_occurs. exact Hf.
  - intros s' pos Hf Hrest. constructor; [|exact Hrest].
    apply find_some_first. exact Hf.
Qed.

Lemma split_nonempty_sep (s : pystr) : split s sep = Ok (split_loop s sep).
Proof.
  unfold split. destruct sep; [congruence|reflexivity].
Qed.

End SplitPieces.

(** ** Words *)

Section Words.

Lemma split_whitespace_from_app (cur a b : pystr) (w : codepoint) :
  isspace w = true ->
  split_whitespace_from cur (a ++ w :: b)
  = split_whitespace_from cur a ++ split_whitespace_from [] b.
Proof.
  intros Hw. revert cur. induction a as [|c a IH]; intros cur.
  - cbn [app split_whitespace_from]. rewrite Hw. destruct cur; reflexivity.
  - cbn [app split_whitespace_from]. destruct (isspace c).
    + destruct cur; rewrite IH; reflexivity.
    + apply IH.
Qed.

Lemma split_whitespace_from_nil_iff (cur s : pystr) :
  split_whitespace_from cur s = [] <-> cur = [] /\ blank s.
Proof.
  unfold blank. revert cur. induction s as [|c s IH]; intros cur.
  - cbn. destruct cur; split; intros H; try tauto; try discriminate.
    destruct H as [H _]. discriminate.
  - cbn [split_whitespace_from forallb]. destruct (isspace c); cbn [andb].
    + destruct cur as [|d cur].
      * apply IH.
      * split; [discriminate|]. intros [H _]. discriminate.
    + rewrite IH. split; [intros [H _]; discriminate|intros [_ H]; discriminate].
Qed.

Lemma word_count_zero_iff (s : pystr) : word_count s = 0%Z <-> blank s.
Proof.
  unfold word_count, len, split_whitespace. split.
  - intros H. destruct (split_whitespace_from [] s) eqn:E.
    + apply split_whitespace_from_nil_iff in E. tauto.
    + cbn [List.length] in H. lia.
  - intros H.
    rewrite (proj2 (split_whitespace_from_nil_iff [] s) (conj eq_refl H)).
    reflexivity.
Qed.

Lemma split_whitespace_from_words (cur s : pystr) :
  (forall c, In c cur -> isspace c = false) ->
  Forall (fun w => w <> [] /\ forall c, In c w -> isspace c = false)
    (split_whitespace_from cur s)
  /\ List.concat (split_whitespace_from cur s)
     = rev cur ++ filter (fun c => negb (isspace c)) s.
Proof.
  revert cur. induction s as [|c s IH]; intros cur Hcur.
  - cbn [split_whitespace_from filter]. destruct cur as [|d cur].
    + split; [constructor|reflexivity].
    + split.
      * constructor; [|constructor]. split.
        -- intros E. apply (f_equal (@List.length codepoint)) in E.
           rewrite length_rev in E. discriminate.
        -- intros x Hx. apply Hcur. apply in_rev. exact Hx.
      * cbn [List.concat]. reflexivity.
  - cbn [split_whitespace_from filter]. destruct (isspace c) eqn:E; cbn [negb].
    + destruct (IH [] (fun x (H : In x []) => match H with end)) as [Hall Hcat].
      destruct cur as [|d cur].
      * split; [exact Hall|exact Hcat].
      * split.
        -- constructor; [|exact Hall]. split.
           ++ intros E'. apply (f_equal (@List.length codepoint)) in E'.
              rewrite length_rev in E'. discriminate.
           ++ intros x Hx. apply Hcur. apply in_rev. exact Hx.
        -- cbn [List.concat]. rewrite Hcat. reflexivity.
    + destruct (IH (c :: cur)) as [Hall Hcat].
      * intros x [<-|Hx]; [exact E|apply Hcur; exact Hx].
      * split; [exact Hall|].
        rewrite Hcat. cbn [rev]. rewrite <- app_assoc. reflexivity.
Qed.

(** X6. The words of [s.split()] are never empty, hold no whitespace, and put
    end to end are the text with its whitespace taken out: the count of line
    19 counts maximal runs of non-whitespace characters. *)
Theorem split_whitespace_words (s : pystr) :
  Forall (fun w => w <> [] /\ forall c, In c w -> isspace c = false)
    (split_whitespace s)
  /\ List.concat (split_whitespace s)
     = filter (fun c => negb (isspace c)) s.
Proof.
  apply (split_whitespace_from_words [] s). intros c [].
Qed.

(** X5. Word counts add up across a whitespace character: the count of
    [a ++ [w] ++ b] is the count of [a] plus the count of [b]. *)
Theorem word_count_additive (a b : pystr) (w : codepoint) :
  isspace w = true ->
  word_count (a ++ w :: b) = (word_count a + word_count b)%Z.
Proof.
  intros Hw. unfold word_count, len, split_whitespace.
  rewrite (split_whitespace_from_app [] a b w Hw), length_app. lia.
Qed.

(** "a b" and "c d e" around a line feed: 2 + 3 words. *)
Lemma word_count_additive_witness :
  word_count (lit "a b" ++ 10%N :: lit "c d e")
  = (word_count (lit "a b") + word_count (lit "c d e"))%Z.
Proof.
  apply word_count_additive. reflexivity.
Defined.

End Words.

(** ** Lemmas on the validator *)

Section Rendering.

Lemma limit_above_maxsize : (PY_SSIZE_T_MAX + 1 < INT_STR_LIMIT)%Z.
Proof.
  unfold PY_SSIZE_T_MAX, INT_STR_LIMIT, MAX_STR_DIGITS.
  apply Z.lt_le_trans with (10 ^ 63)%Z.
  - vm_compute. reflexivity.
  - apply Z.pow_le_mono_r; [reflexivity|discriminate].
Qed.

(** The limit is where the digits of an int become more than
    [MAX_STR_DIGITS]: one below it is 4300 nines, the limit itself a one and
    4300 zeros. *)
Lemma limit_digits :
  Z.to_int (INT_STR_LIMIT - 1)
  = Decimal.Pos (Nat.iter 4300 Decimal.D9 Decimal.Nil)
  /\ Z.to_int INT_STR_LIMIT
     = Decimal.Pos (Decimal.D1 (Nat.iter 4300 Decimal.D0 Decimal.Nil))
  /\ len (decimal (INT_STR_LIMIT - 1)) = MAX_STR_DIGITS
  /\ len (decimal INT_STR_LIMIT) = (MAX_STR_DIGITS + 1)%Z.
Proof.
  assert (H9 : Z.to_int (INT_STR_LIMIT - 1)
               = Decimal.Pos (Nat.iter 4300 Decimal.D9 Decimal.Nil)).
  { replace (INT_STR_LIMIT - 1)%Z
      with (Z.of_int (Decimal.Pos (Nat.iter 4300 Decimal.D9 Decimal.Nil)))
      by (vm_compute; reflexivity).
    rewrite DecimalZ.to_of. vm_compute. reflexivity. }
  assert (H0 : Z.to_int INT_STR_LIMIT
               = Decimal.Pos
                   (Decimal.D1 (Nat.iter 4300 Decimal.D0 Decimal.Nil))).
  { replace INT_STR_LIMIT
      with (Z.of_int
              (Decimal.Pos
                 (Decimal.D1 (Nat.iter 4300 Decimal.D0 Decimal.Nil))))
      by (vm_compute; reflexivity).
    rewrite DecimalZ.to_of. vm_compute. reflexivity. }
  split; [exact H9|]. split; [exact H0|].
  unfold decimal. rewrite H9, H0. split; vm_compute; reflexivity.
Qed.

Lemma renders_length (n : Z) :
  (0 <= n <= PY_SSIZE_T_MAX + 1)%Z -> renders n.
Proof.
  intros H. unfold renders. pose proof limit_above_maxsize. lia.
Qed.

Lemma renders_small (n : Z) : (0 <= n <= 1000)%Z -> renders n.
Proof.
  intros H. apply renders_length. unfold PY_SSIZE_T_MAX. lia.
Qed.

Lemma str_of_int_renders (n : Z) : renders n -> str_of_int n = Ok (decimal n).
Proof.
  unfold renders, str_of_int. intros H. apply Z.ltb_lt in H. rewrite H.
  reflexivity.
Qed.

Lemma str_of_int_raises (n : Z) :
  ~ renders n -> str_of_int n = Raise DIGITS_ERROR.
Proof.
  unfold renders, str_of_int. intros H.
  destruct (Z.ltb_spec (Z.abs n) INT_STR_LIMIT); [contradiction|reflexivity].
Qed.

Lemma renders_dec (n : Z) : {renders n} + {~ renders n}.
Proof. unfold renders. apply Z_lt_dec. Qed.

Lemma count_message_renders (count lo hi : Z) :
  renders count -> renders lo -> renders hi ->
  count_message count lo hi = Ok (REJECT_PREFIX ++ count_template count lo hi).
Proof.
  intros Hc Hlo Hhi. unfold count_message.
  rewrite !str_of_int_renders by assumption. reflexivity.
Qed.

Lemma count_message_ok (count lo hi : Z) (returned : pystr) :
  count_message count lo hi = Ok returned ->
  returned = REJECT_PREFIX ++ count_template count lo hi
  /\ renders count /\ renders lo /\ renders hi.
Proof.
  intros H.
  destruct (renders_dec count) as [Hc|Hc];
    [|unfold count_message in H; rewrite (str_of_int_raises _ Hc) in H;
      discriminate H].
  destruct (renders_dec lo) as [Hlo|Hlo];
    [|unfold count_message in H;
      rewrite (str_of_int_renders _ Hc), (str_of_int_raises _ Hlo) in H;
      discriminate H].
  destruct (renders_dec hi) as [Hhi|Hhi];
    [|unfold count_message in H;
      rewrite (str_of_int_renders _ Hc), (str_of_int_renders _ Hlo),
        (str_of_int_raises _ Hhi) in H;
      discriminate H].
  rewrite (count_message_renders _ _ _ Hc Hlo Hhi) in H.
  split; [congruence|]. split; [assumption|]. split; assumption.
Qed.

Lemma count_message_raise (count lo hi : Z) (e : exn) :
  count_message count lo hi = Raise e -> e = DIGITS_ERROR.
Proof.
  unfold count_message, str_of_int.
  repeat (destruct (_ <? _)%Z; cbn [bind]; [|congruence]). discriminate.
Qed.

Lemma words_message_renders (index wordCount lo hi : Z) :
  renders index -> renders wordCount -> renders lo -> renders hi ->
  words_message index wordCount lo hi
  = Ok (REJECT_PREFIX ++ words_template index wordCount lo hi).
Proof.
  intros Hi Hw Hlo Hhi. unfold words_message.
  rewrite !str_of_int_renders by assumption. reflexivity.
Qed.

Lemma words_message_ok (index wordCount lo hi : Z) (returned : pystr) :
  words_message index wordCount lo hi = Ok returned ->
  returned = REJECT_PREFIX ++ words_template index wordCount lo hi.
Proof.
  unfold words_message, str_of_int.
  repeat (destruct (_ <? _)%Z; cbn [bind]; [|discriminate]).
  intros H. injection H as <-. reflexivity.
Qed.

Lemma words_message_raise (index wordCount lo hi : Z) (e : exn) :
  words_message index wordCount lo hi = Raise e -> e = DIGITS_ERROR.
Proof.
  unfold words_message, str_of_int.
  repeat (destruct (_ <? _)%Z; cbn [bind]; [|congruence]). discriminate.
Qed.

End Rendering.

Section ValidatorLemmas.

Variables min_chapters max_chapters min_words max_words : Z.

Lemma outside_false (lo hi x : Z) :
  ((x <? lo) || (x >? hi))%Z = false <-> within lo hi x.
Proof.
  unfold within. rewrite orb_false_iff, Z.gtb_ltb, !Z.ltb_ge. tauto.
Qed.

Lemma outside_true (lo hi x : Z) :
  ((x <? lo) || (x >? hi))%Z = true <-> ~ within lo hi x.
Proof.
  unfold within. rewrite orb_true_iff, Z.gtb_ltb, !Z.ltb_lt. lia.
Qed.

Lemma chapters_of_split_loop (output : pystr) :
  chapters_of output
  = Ok (filter (fun c => truthy (strip c)) (split_loop output CHAPTER)).
Proof. reflexivity. Qed.

Lemma chapters_of_no_separator (output : pystr) :
  ~ occurs CHAPTER output ->
  chapters_of output = Ok (if truthy (strip output) then [output] else []).
Proof.
  intros Hno. rewrite chapters_of_split_loop.
  rewrite (split_loop_none _ _ (find_none _ _ Hno)). reflexivity.
Qed.

Lemma check_words_pass (chapters : list pystr) (start : Z) :
  Forall (words_ok min_words max_words) chapters ->
  check_words (enumerate chapters start) min_words max_words = Ok None.
Proof.
  intros Hall. revert start.
  induction Hall as [|c chapters Hc _ IH]; intros start; cbn [enumerate check_words].
  - reflexivity.
  - apply outside_false in Hc. rewrite Hc. apply IH.
Qed.

Lemma check_words_first (pre : list pystr) (c : pystr) (post : list pystr)
    (start : Z) :
  Forall (words_ok min_words max_words) pre ->
  ~ words_ok min_words max_words c ->
  check_words (enumerate (pre ++ c :: post) start) min_words max_words
  = (message <- words_message (start + len pre) (word_count c)
                  min_words max_words ;;
     Ok (Some message)).
Proof.
  intros Hpre Hc. revert start.
  induction Hpre as [|p pre Hp _ IH]; intros start;
    cbn [app enumerate check_words].
  - apply outside_true in Hc. rewrite Hc.
    unfold len. cbn [List.length Z.of_nat]. rewrite Z.add_0_r.
    unfold words_message.
    repeat (destruct (str_of_int _); cbn [bind]; [|reflexivity]).
    reflexivity.
  - apply outside_false in Hp. rewrite Hp. rewrite IH.
    replace (start + 1 + len pre)%Z with (start + len (p :: pre))%Z;
      [reflexivity|].
    unfold len. cbn [List.length]. lia.
Qed.

(** The loop either runs to its end, every chapter passing, or stops at the
    first chapter that fails, with the f-string of line 21. *)
Lemma check_words_cases (chapters : list pystr) (start : Z) :
  (Forall (words_ok min_words max_words) chapters /\
   check_words (enumerate chapters start) min_words max_words = Ok None)
  \/
  (exists pre c post,
     chapters = pre ++ c :: post /\ Forall (words_ok min_words max_words) pre /\ ~ words_ok min_words max_words c /\
     check_words (enumerate chapters start) min_words max_words
     = (message <- words_message (start + len pre) (word_count c)
                     min_words max_words ;;
        Ok (Some message))).
Proof.
  revert start. induction chapters as [|c chapters IH]; intros start.
  - left. split; [constructor|reflexivity].
  - destruct (((word_count c <? min_words) || (word_count c >? max_words))%Z)
      eqn:E.
    + right. exists [], c, chapters. apply outside_true in E.
      split; [reflexivity|]. split; [constructor|]. split; [exact E|].
      apply (check_words_first [] c chapters start); [constructor|exact E].
    + apply outside_false in E.
      destruct (IH (start + 1)%Z) as [[Hall Hnone]|(pre & d & post & -> & Hpre & Hd & _)].
      * left. split; [constructor; assumption|].
        apply check_words_pass. constructor; assumption.
      * right. exists (c :: pre), d, post.
        split; [reflexivity|]. split; [constructor; assumption|].
        split; [exact Hd|].
        apply (check_words_first (c :: pre) d post start);
          [constructor; assumption|exact Hd].
Qed.

(** The three ways through [validate_chapters], by the tests that lead
    there: the f-string of line 16, the f-string of line 21, the text. *)
Lemma validate_chapters_count_rejected (output : pystr) (chapters : list pystr) :
  chapters_of output = Ok chapters ->
  ~ within min_chapters max_chapters (len chapters) ->
  validate_chapters output min_chapters max_chapters min_words max_words
  = count_message (len chapters) min_chapters max_chapters.
Proof.
  intros Hch Hout. unfold validate_chapters. rewrite Hch. cbn [bind].
  apply outside_true in Hout. rewrite Hout. reflexivity.
Qed.

Lemma validate_chapters_words_rejected (output : pystr)
    (pre : list pystr) (c : pystr) (post : list pystr) :
  chapters_of output = Ok (pre ++ c :: post) ->
  within min_chapters max_chapters (len (pre ++ c :: post)) ->
  Forall (words_ok min_words max_words) pre ->
  ~ words_ok min_words max_words c ->
  validate_chapters output min_chapters max_chapters min_words max_words
  = words_message (len pre + 1) (word_count c) min_words max_words.
Proof.
  intros Hch Hin Hpre Hc. unfold validate_chapters. rewrite Hch. cbn [bind].
  apply outside_false in Hin. rewrite Hin.
  rewrite (check_words_first pre c post 1 Hpre Hc).
  rewrite (Z.add_comm 1).
  destruct (words_message _ _ _ _); reflexivity.
Qed.

Lemma validate_chapters_accepted (output : pystr) (chapters : list pystr) :
  chapters_of output = Ok chapters ->
  within min_chapters max_chapters (len chapters) ->
  Forall (words_ok min_words max_words) chapters ->
  validate_chapters output min_chapters max_chapters min_words max_words
  = Ok output.
Proof.
  intros Hch Hin Hall. unfold validate_chapters. rewrite Hch. cbn [bind].
  apply outside_false in Hin. rewrite Hin.
  rewrite (check_words_pass chapters 1 Hall). reflexivity.
Qed.

Lemma within_dec (lo hi x : Z) : {within lo hi x} + {~ within lo hi x}.
Proof.
  unfold within.
  destruct (Z_le_dec lo x); destruct (Z_le_dec x hi);
    [left|right|right|right]; lia.
Qed.

End ValidatorLemmas.

(** ** Lengths: what the validator renders of a text fits the digit limit *)

Section Lengths.

Lemma split_loop_count (s sep : pystr) :
  sep <> [] ->
  (List.length (split_loop s sep) <= List.length s + 1)%nat.
Proof.
  intros Hsep.
  apply (split_loop_cuts sep Hsep
           (fun s parts => (List.length parts <= List.length s + 1)%nat)).
  - intros s' _. cbn [List.length]. lia.
  - intros s' pos Hf IH. cbn [List.length].
    pose proof (skipn_after_find_shorter sep Hsep s' pos Hf). lia.
Qed.

Lemma split_loop_piece_length (s sep : pystr) :
  sep <> [] ->
  Forall (fun p => (List.length p <= List.length s)%nat) (split_loop s sep).
Proof.
  intros Hsep.
  apply (split_loop_cuts sep Hsep
           (fun s parts =>
              Forall (fun p => (List.length p <= List.length s)%nat) parts)).
  - intros s' _. constructor; [apply Nat.le_refl|constructor].
  - intros s' pos Hf IH. constructor.
    + rewrite length_firstn. apply Nat.le_min_r.
    + apply (Forall_impl _ (P := fun p =>
               (List.length p
                <= List.length (skipn (pos + List.length sep) s'))%nat));
        [|exact IH].
      intros p Hp. rewrite length_skipn in Hp. lia.
Qed.

Lemma length_concat_nonempty {A : Type} (l : list (list A)) :
  Forall (fun w => w <> []) l ->
  (List.length l <= List.length (List.concat l))%nat.
Proof.
  induction 1 as [|w l Hw _ IH]; cbn [List.concat List.length].
  - apply Nat.le_refl.
  - rewrite length_app. destruct w; [congruence|]. cbn [List.length]. lia.
Qed.

Lemma word_count_le_len (c : pystr) : (word_count c <= len c)%Z.
Proof.
  unfold word_count, len, split_whitespace.
  destruct (split_whitespace_from_words [] c) as [Hall Hcat].
  - intros x [].
  - apply Nat2Z.inj_le.
    apply Nat.le_trans
      with (List.length (List.concat (split_whitespace_from [] c))).
    + apply length_concat_nonempty.
      apply (Forall_impl _ (P := fun w =>
               w <> [] /\ forall x, In x w -> isspace x = false));
        [|exact Hall].
      intros w [Hw _]. exact Hw.
    + rewrite Hcat. cbn [rev app]. apply filter_length_le.
Qed.

Lemma chapters_count_le (output : pystr) (chapters : list pystr) :
  chapters_of output = Ok chapters ->
  (len chapters <= len output + 1)%Z.
Proof.
  rewrite chapters_of_split_loop. intros H. injection H as <-.
  unfold len.
  pose proof (filter_length_le (fun c => truthy (strip c))
                (split_loop output CHAPTER)).
  pose proof (split_loop_count output CHAPTER CHAPTER_not_nil). lia.
Qed.

Lemma chapter_len_le (output : pystr) (chapters : list pystr) (c : pystr) :
  chapters_of output = Ok chapters ->
  In c chapters ->
  (len c <= len output)%Z.
Proof.
  rewrite chapters_of_split_loop. intros H Hc. injection H as <-.
  apply filter_In in Hc. destruct Hc as [Hc _].
  pose proof (split_loop_piece_length output CHAPTER CHAPTER_not_nil) as Hp.
  rewrite Forall_forall in Hp. specialize (Hp c Hc). unfold len. lia.
Qed.

Variable output : pystr.
Hypothesis output_length : (len output <= PY_SSIZE_T_MAX)%Z.

Lemma chapters_count_renders (chapters : list pystr) :
  chapters_of output = Ok chapters -> renders (len chapters).
Proof.
  intros Hch. apply renders_length.
  pose proof (chapters_count_le output chapters Hch). unfold len in *. lia.
Qed.

Lemma chapter_words_render (chapters : list pystr) (c : pystr) :
  chapters_of output = Ok chapters -> In c chapters ->
  renders (word_count c).
Proof.
  intros Hch Hc. apply renders_length.
  pose proof (chapter_len_le output chapters c Hch Hc).
  pose proof (word_count_le_len c).
  assert (0 <= word_count c)%Z by (unfold word_count, len; lia). lia.
Qed.

Lemma chapter_index_renders (pre : list pystr) (c : pystr) (post : list pystr) :
  chapters_of output = Ok (pre ++ c :: post) -> renders (len pre + 1).
Proof.
  intros Hch. apply renders_length.
  pose proof (chapters_count_le output _ Hch) as H.
  unfold len in *. rewrite length_app in H. cbn [List.length] in H. lia.
Qed.

End Lengths.

(** ** Properties of [validate_chapters] *)

Section Acceptance.

(** C1. When the number of non-blank fragments of the text lies within
    [min_chapters, max_chapters] and every fragment's word count lies within
    [min_words, max_words], [validate_chapters] returns the text unchanged,
    and validating the returned text again gives the same result. *)
Theorem validate_chapters_accepts_unchanged
    (output : pystr) (chapters : list pystr)
    (min_chapters max_chapters min_words max_words : Z) :
  chapters_of output = Ok chapters ->
  within min_chapters max_chapters (len chapters) ->
  Forall (fun c => within min_words max_words (word_count c)) chapters ->
  validate_chapters output min_chapters max_chapters min_words max_words
  = Ok output
  /\ (returned <- validate_chapters output min_chapters max_chapters
                    min_words max_words ;;
      validate_chapters returned min_chapters max_chapters
        min_words max_words)
     = validate_chapters output min_chapters max_chapters min_words max_words.
Proof.
  intros Hch Hcount Hwords.
  pose proof (validate_chapters_accepted min_chapters max_chapters
                min_words max_words output chapters Hch Hcount Hwords) as Hacc.
  split; [exact Hacc|].
  rewrite Hacc. cbn [bind]. exact Hacc.
Qed.

(** Two chapters of two words each, validated with bounds 2-2 and 2-2. *)
Lemma validate_chapters_accepts_unchanged_witness :
  validate_chapters (book 2 2) 2 2 2 2 = Ok (book 2 2)
  /\ (returned <- validate_chapters (book 2 2) 2 2 2 2 ;;
      validate_chapters returned 2 2 2 2)
     = validate_chapters (book 2 2) 2 2 2 2.
Proof.
  apply (validate_chapters_accepts_unchanged (book 2 2) [words 2; words 2]).
  - reflexivity.
  - unfold within, len. simpl. lia.
  - repeat constructor; discriminate.
Defined.

(** C5. With every bound left to its default (8 and 10 chapters, 300 and 400
    words), a text with exactly 8 or exactly 10 fragments, each of 300 to 400
    words, both ends included, is returned unchanged. *)
Theorem validate_chapters_default_accepts_boundaries
    (output : pystr) (chapters : list pystr) :
  chapters_of output = Ok chapters ->
  len chapters = 8%Z \/ len chapters = 10%Z ->
  Forall (fun c => (300 <= word_count c <= 400)%Z) chapters ->
  validate_chapters_default output = Ok output
  /\ (DEFAULT_MIN_CHAPTERS, DEFAULT_MAX_CHAPTERS,
      DEFAULT_MIN_WORDS, DEFAULT_MAX_WORDS) = (8, 10, 300, 400)%Z.
Proof.
  intros Hch Hcount Hwords. split; [|reflexivity].
  apply (validate_chapters_accepted _ _ _ _ output chapters Hch).
  - unfold within, DEFAULT_MIN_CHAPTERS, DEFAULT_MAX_CHAPTERS.
    destruct Hcount as [-> | ->]; lia.
  - exact Hwords.
Qed.

(** Eight chapters of 300 words each and ten chapters of 400 words each, with
    the bounds left to their defaults. *)
Lemma validate_chapters_default_accepts_boundaries_witness :
  validate_chapters_default (book 8 300) = Ok (book 8 300)
  /\ validate_chapters_default (book 10 400) = Ok (book 10 400).
Proof.
  split.
  - apply (validate_chapters_default_accepts_boundaries
             (book 8 300) (repeat (words 300) 8)).
    + vm_compute. reflexivity.
    + left. reflexivity.
    + repeat constructor; vm_compute; discriminate.
  - apply (validate_chapters_default_accepts_boundaries
             (book 10 400) (repeat (words 400) 10)).
    + vm_compute. reflexivity.
    + right. reflexivity.
    + repeat constructor; vm_compute; discriminate.
Defined.

End Acceptance.

Section Rejection.

Variables min_chapters max_chapters min_words max_words : Z.

(** Whatever [validate_chapters] returns is the text, or the prefix and the
    template of step 2, or the prefix and the template of step 3 for the
    first failing fragment. *)
Lemma validate_chapters_returned (output : pystr) (chapters : list pystr)
    (returned : pystr) :
  chapters_of output = Ok chapters ->
  validate_chapters output min_chapters max_chapters min_words max_words
  = Ok returned ->
  (within min_chapters max_chapters (len chapters)
   /\ Forall (words_ok min_words max_words) chapters
   /\ returned = output)
  \/
  (~ within min_chapters max_chapters (len chapters)
   /\ returned
      = REJECT_PREFIX
          ++ count_template (len chapters) min_chapters max_chapters)
  \/
  (within min_chapters max_chapters (len chapters)
   /\ exists pre c post,
        chapters = pre ++ c :: post
        /\ Forall (words_ok min_words max_words) pre
        /\ ~ words_ok min_words max_words c
        /\ returned
           = REJECT_PREFIX
               ++ words_template (len pre + 1) (word_count c)
                    min_words max_words).
Proof.
  intros Hch Hret.
  destruct (within_dec min_chapters max_chapters (len chapters)) as [Hin|Hout].
  - destruct (check_words_cases min_words max_words chapters 1)
      as [[Hall _]|(pre & c & post & Heq & Hpre & Hc & _)].
    + left.
      rewrite (validate_chapters_accepted _ _ _ _ output chapters Hch Hin Hall)
        in Hret.
      split; [exact Hin|]. split; [exact Hall|congruence].
    + right. right. split; [exact Hin|]. subst chapters.
      rewrite (validate_chapters_words_rejected _ _ _ _ output pre c post
                 Hch Hin Hpre Hc) in Hret.
      apply words_message_ok in Hret.
      exists pre, c, post. repeat split; assumption.
  - right. left. split; [exact Hout|].
    rewrite (validate_chapters_count_rejected _ _ _ _ output chapters Hch Hout)
      in Hret.
    apply count_message_ok in Hret. apply Hret.
Qed.

(** C3, as amended. When the number of fragments is outside
    [min_chapters, max_chapters] and both bounds have at most 4300 digits,
    [validate_chapters] returns the cross mark and a space followed by the
    template "Found {count} chapters. Please rewrite with
    {min_chapters}-{max_chapters} chapters." with the placeholders
    substituted; and whenever a value is returned, it is the unmodified
    text, or that prefix followed by the template of step 2, or that prefix
    followed by the template of step 3 for some fragment and its 1-based
    index. *)
Theorem validate_chapters_output_shape
    (output : pystr) (chapters : list pystr) :
  chapters_of output = Ok chapters ->
  (~ within min_chapters max_chapters (len chapters) ->
   (len output <= PY_SSIZE_T_MAX)%Z ->
   renders min_chapters -> renders max_chapters ->
   validate_chapters output min_chapters max_chapters min_words max_words
   = Ok (REJECT_PREFIX
           ++ count_template (len chapters) min_chapters max_chapters))
  /\
  forall returned,
    validate_chapters output min_chapters max_chapters min_words max_words
    = Ok returned ->
    returned = output
    \/ returned
       = REJECT_PREFIX
           ++ count_template (len chapters) min_chapters max_chapters
    \/ exists (i : nat) (chapter : pystr),
         nth_error chapters i = Some chapter
         /\ returned
            = REJECT_PREFIX
                ++ words_template (Z.of_nat i + 1) (word_count chapter)
                     min_words max_words.
Proof.
  intros Hch. split.
  - intros Hout Hlen Hmin Hmax.
    rewrite (validate_chapters_count_rejected _ _ _ _ output chapters Hch Hout).
    apply count_message_renders; [|assumption|assumption].
    apply (chapters_count_renders output Hlen chapters Hch).
  - intros returned Hret.
    destruct (validate_chapters_returned output chapters returned Hch Hret)
      as [(_ & _ & H)|[(_ & H)|(_ & pre & c & post & Heq & _ & _ & H)]].
    + left. exact H.
    + right. left. exact H.
    + right. right. exists (List.length pre), c. split.
      * rewrite Heq, nth_error_app2, Nat.sub_diag; [reflexivity|lia].
      * exact H.
Qed.

(** C4. The chapter-count test comes first: when it fails, what is returned
    is the count message whatever the word counts are; when it passes, the
    fragments are examined in order and what is returned names the first
    fragment (1-based) whose word count is outside [min_words, max_words],
    whatever the fragments after it are. In both cases the message is
    indeed returned when the two bounds it cites have at most 4300 digits. *)
Theorem validate_chapters_check_order
    (output : pystr) (chapters : list pystr) :
  chapters_of output = Ok chapters ->
  (~ within min_chapters max_chapters (len chapters) ->
   (forall returned,
      validate_chapters output min_chapters max_chapters min_words max_words
      = Ok returned ->
      returned
      = REJECT_PREFIX
          ++ count_template (len chapters) min_chapters max_chapters)
   /\
   ((len output <= PY_SSIZE_T_MAX)%Z ->
    renders min_chapters -> renders max_chapters ->
    validate_chapters output min_chapters max_chapters min_words max_words
    = Ok (REJECT_PREFIX
            ++ count_template (len chapters) min_chapters max_chapters)))
  /\
  (within min_chapters max_chapters (len chapters) ->
   forall (pre : list pystr) (chapter : pystr) (post : list pystr),
     chapters = pre ++ chapter :: post ->
     Forall (fun c => within min_words max_words (word_count c)) pre ->
     ~ within min_words max_words (word_count chapter) ->
     (forall returned,
        validate_chapters output min_chapters max_chapters min_words max_words
        = Ok returned ->
        returned
        = REJECT_PREFIX
            ++ words_template (len pre + 1) (word_count chapter)
                 min_words max_words)
     /\
     ((len output <= PY_SSIZE_T_MAX)%Z ->
      renders min_words -> renders max_words ->
      validate_chapters output min_chapters max_chapters min_words max_words
      = Ok (REJECT_PREFIX
              ++ words_template (len pre + 1) (word_count chapter)
                   min_words max_words))).
Proof.
  intros Hch. split.
  - intros Hout.
    rewrite (validate_chapters_count_rejected _ _ _ _ output chapters Hch Hout).
    split.
    + intros returned Hret. apply count_message_ok in Hret. apply Hret.
    + intros Hlen Hmin Hmax.
      apply count_message_renders; [|assumption|assumption].
      apply (chapters_count_renders output Hlen chapters Hch).
  - intros Hin pre chapter post -> Hpre Hc.
    rewrite (validate_chapters_words_rejected _ _ _ _ output pre chapter post
               Hch Hin Hpre Hc).
    split.
    + intros returned Hret. apply words_message_ok in Hret. exact Hret.
    + intros Hlen Hmin Hmax. apply words_message_renders.
      * apply (chapter_index_renders output Hlen pre chapter post Hch).
      * apply (chapter_words_render output Hlen _ chapter Hch).
        apply in_or_app. right. left. reflexivity.
      * exact Hmin.
      * exact Hmax.
Qed.

(** C9. Both rejection messages begin with the cross mark and a space, placed
    before the template text; a returned string that does not begin with
    them can only be the accepted text. *)
Theorem validate_chapters_rejections_prefixed
    (output : pystr) (chapters : list pystr) (returned : pystr) :
  chapters_of output = Ok chapters ->
  validate_chapters output min_chapters max_chapters min_words max_words
  = Ok returned ->
  (~ within min_chapters max_chapters (len chapters)
   \/ Exists (fun c => ~ within min_words max_words (word_count c)) chapters ->
   startswith returned REJECT_PREFIX = true
   /\ exists body,
        returned = REJECT_PREFIX ++ body
        /\ (body = count_template (len chapters) min_chapters max_chapters
            \/ exists index wordCount,
                 body = words_template index wordCount min_words max_words))
  /\
  (startswith returned REJECT_PREFIX = false ->
   returned = output
   /\ within min_chapters max_chapters (len chapters)
   /\ Forall (fun c => within min_words max_words (word_count c)) chapters).
Proof.
  intros Hch Hret.
  destruct (validate_chapters_returned output chapters returned Hch Hret)
    as [(Hin & Hall & ->)|[(_ & ->)|(_ & pre & c & post & _ & _ & _ & ->)]].
  - split.
    + intros [Hout|Hex]; [contradiction|].
      apply Exists_exists in Hex. destruct Hex as (c & Hc & Hbad).
      rewrite Forall_forall in Hall. exfalso. apply Hbad, Hall, Hc.
    + intros _. split; [reflexivity|]. split; [exact Hin|exact Hall].
  - split.
    + intros _. split; [apply startswith_app|].
      eexists. split; [reflexivity|]. left. reflexivity.
    + rewrite startswith_app. discriminate.
  - split.
    + intros _. split; [apply startswith_app|].
      eexists. split; [reflexivity|]. right. eauto.
    + rewrite startswith_app. discriminate.
Qed.

End Rejection.

Section RejectionExamples.

Lemma sample_three_length : (len sample_three <= PY_SSIZE_T_MAX)%Z.
Proof. vm_compute. discriminate. Qed.

(** The empty text has no fragment, which is outside 8-10, and the value
    returned is not the bare template of step 2; and with a lower chapter
    bound of 4301 digits nothing is returned: line 16 raises. *)
Lemma count_rejection_literal_counterexample :
  chapters_of [] = Ok []
  /\ ~ within 8 10 (len (@nil pystr))
  /\ count_template 0 8 10
     = lit "Found 0 chapters. Please rewrite with 8-10 chapters."
  /\ validate_chapters [] 8 10 300 400
     = Ok (CROSS_MARK
             :: lit " Found 0 chapters. Please rewrite with 8-10 chapters.")
  /\ validate_chapters [] 8 10 300 400 <> Ok (count_template 0 8 10)
  /\ ~ within (10 ^ 4300) 10 (len (@nil pystr))
  /\ validate_chapters [] (10 ^ 4300) 10 300 400 = Raise DIGITS_ERROR.
Proof.
  split; [reflexivity|]. split; [unfold within, len; simpl; lia|].
  split; [reflexivity|]. split; [vm_compute; reflexivity|].
  split; [vm_compute; discriminate|].
  split; [|vm_compute; reflexivity].
  unfold within, len. cbn [List.length Z.of_nat]. intros [H _].
  revert H. apply Z.lt_nge. apply Z.pow_pos_nonneg; [reflexivity|discriminate].
Qed.

(** [sample_three] with 4-5 chapters asked for: the count message. *)
Lemma validate_chapters_output_shape_witness :
  validate_chapters sample_three 4 5 1 2
  = Ok (CROSS_MARK
          :: lit " Found 3 chapters. Please rewrite with 4-5 chapters.").
Proof.
  apply (proj1 (validate_chapters_output_shape 4 5 1 2 sample_three
                  sample_three_chapters eq_refl)).
  - unfold within, len. simpl. lia.
  - exact sample_three_length.
  - apply renders_small. lia.
  - apply renders_small. lia.
Defined.

(** [sample_three]: with 4-5 chapters asked for, the count message although
    the second fragment has too many words; with 3 chapters and 1-2 words
    asked for, the message names the second fragment, not the third. *)
Lemma validate_chapters_check_order_witness :
  validate_chapters sample_three 4 5 1 2
  = Ok (CROSS_MARK
          :: lit " Found 3 chapters. Please rewrite with 4-5 chapters.")
  /\ validate_chapters sample_three 3 3 1 2
     = Ok (CROSS_MARK
             :: lit " Chapter 2 has 3 words. Please rewrite with 1-2 words.").
Proof.
  destruct (validate_chapters_check_order 4 5 1 2 sample_three
              sample_three_chapters eq_refl) as [Hcount _].
  destruct (validate_chapters_check_order 3 3 1 2 sample_three
              sample_three_chapters eq_refl) as [_ Hwords].
  split.
  - apply (proj2 (Hcount ltac:(unfold within, len; simpl; lia))).
    + exact sample_three_length.
    + apply renders_small. lia.
    + apply renders_small. lia.
  - apply (proj2 (Hwords ltac:(unfold within, len; simpl; lia)
                    [lit " a b "] (lit " c d e ") [lit " f g h"] eq_refl
                    ltac:(repeat constructor; discriminate)
                    ltac:(unfold within, word_count, len; simpl; lia))).
    + exact sample_three_length.
    + apply renders_small. lia.
    + apply renders_small. lia.
Defined.

(** [sample_three] with 3 chapters and 1-2 words asked for: the message
    returned begins with the cross mark and a space. *)
Lemma validate_chapters_rejections_prefixed_witness :
  startswith
    (CROSS_MARK :: lit " Chapter 2 has 3 words. Please rewrite with 1-2 words.")
    REJECT_PREFIX = true.
Proof.
  apply (proj1 (validate_chapters_rejections_prefixed 3 3 1 2 sample_three
                  sample_three_chapters _ eq_refl
                  ltac:(vm_compute; reflexivity))).
  right. apply Exists_cons_tl. apply Exists_cons_hd.
  unfold within, word_count, len. simpl. lia.
Defined.

End RejectionExamples.

Section NoSeparator.

Lemma truthy_strip_not_blank (s : pystr) :
  truthy (strip s) = negb (forallb isspace s).
Proof.
  destruct (forallb isspace s) eqn:E; cbn [negb].
  - apply truthy_strip_false. exact E.
  - apply truthy_strip_true. unfold blank. rewrite E. discriminate.
Qed.

Lemma not_blank_iff (s : pystr) :
  ~ blank s <-> exists c, In c s /\ isspace c = false.
Proof.
  unfold blank. split.
  - intros Hnb. induction s as [|c s IH]; [exfalso; apply Hnb; reflexivity|].
    destruct (isspace c) eqn:E.
    + destruct IH as (d & Hd & Hsp).
      * intros Hs. apply Hnb. cbn [forallb]. rewrite E, Hs. reflexivity.
      * exists d. split; [right; exact Hd|exact Hsp].
    + exists c. split; [left; reflexivity|exact E].
  - intros (c & Hc & Hsp) Hb. rewrite forallb_forall in Hb.
    rewrite (Hb c Hc) in Hsp. discriminate.
Qed.

Lemma default_no_separator_blank (output : pystr) :
  ~ occurs CHAPTER output ->
  blank output ->
  validate_chapters_default output
  = Ok (CROSS_MARK
          :: lit " Found 0 chapters. Please rewrite with 8-10 chapters.").
Proof.
  intros Hno Hb. pose proof (chapters_of_no_separator output Hno) as Hch.
  apply truthy_strip_false in Hb. rewrite Hb in Hch.
  unfold validate_chapters_default, DEFAULT_MIN_CHAPTERS, DEFAULT_MAX_CHAPTERS.
  rewrite (validate_chapters_count_rejected _ _ _ _ output [] Hch)
    by (unfold within, len; simpl; lia).
  rewrite count_message_renders by (apply renders_small; unfold len; simpl; lia).
  reflexivity.
Qed.

Lemma default_no_separator_not_blank (output : pystr) :
  ~ occurs CHAPTER output ->
  ~ blank output ->
  validate_chapters_default output
  = Ok (CROSS_MARK
          :: lit " Found 1 chapters. Please rewrite with 8-10 chapters.").
Proof.
  intros Hno Hb. pose proof (chapters_of_no_separator output Hno) as Hch.
  apply truthy_strip_true in Hb. rewrite Hb in Hch.
  unfold validate_chapters_default, DEFAULT_MIN_CHAPTERS, DEFAULT_MAX_CHAPTERS.
  rewrite (validate_chapters_count_rejected _ _ _ _ output [output] Hch)
    by (unfold within, len; simpl; lia).
  rewrite count_message_renders by (apply renders_small; unfold len; simpl; lia).
  reflexivity.
Qed.

(** C2, as amended. A text with no occurrence of "Chapter", validated with
    the default bounds, is rejected with the message citing 0 chapters when
    it is empty or whitespace only, and with the message citing 1 chapter
    otherwise. *)
Theorem validate_chapters_default_no_separator (output : pystr) :
  ~ occurs CHAPTER output ->
  (blank output ->
   validate_chapters_default output
   = Ok (CROSS_MARK
           :: lit " Found 0 chapters. Please rewrite with 8-10 chapters."))
  /\
  (~ blank output ->
   validate_chapters_default output
   = Ok (CROSS_MARK
           :: lit " Found 1 chapters. Please rewrite with 8-10 chapters.")).
Proof.
  intros Hno. split.
  - apply default_no_separator_blank. exact Hno.
  - apply default_no_separator_not_blank. exact Hno.
Qed.

(** The text "hello" holds no "Chapter", and the message returned for it
    cites 1 chapter; "Found 0 chapters" occurs nowhere in it. *)
Lemma validate_chapters_default_no_separator_counterexample :
  ~ occurs CHAPTER (lit "hello")
  /\ validate_chapters_default (lit "hello")
     = Ok (CROSS_MARK
             :: lit " Found 1 chapters. Please rewrite with 8-10 chapters.")
  /\ ~ occurs (lit "Found 0 chapters")
         (CROSS_MARK
            :: lit " Found 1 chapters. Please rewrite with 8-10 chapters.").
Proof.
  split; [apply find_none_not_occurs; reflexivity|].
  split; [reflexivity|].
  apply find_none_not_occurs. reflexivity.
Qed.

(** A text of three spaces, and the text "hello". *)
Lemma validate_chapters_default_no_separator_witness :
  validate_chapters_default (lit "   ")
  = Ok (CROSS_MARK
          :: lit " Found 0 chapters. Please rewrite with 8-10 chapters.")
  /\ validate_chapters_default (lit "hello")
     = Ok (CROSS_MARK
             :: lit " Found 1 chapters. Please rewrite with 8-10 chapters.").
Proof.
  split.
  - apply (proj1 (validate_chapters_default_no_separator (lit "   ")
                    (find_none_not_occurs (lit "   ") CHAPTER eq_refl))).
    reflexivity.
  - apply (proj2 (validate_chapters_default_no_separator (lit "hello")
                    (find_none_not_occurs (lit "hello") CHAPTER eq_refl))).
    unfold blank. simpl. discriminate.
Defined.

(** C10. A text with no occurrence of "Chapter" and at least one character
    that is not whitespace is its own single fragment: the chapter count is
    1, and with the default bounds the message citing 1 chapter is
    returned. *)
Theorem validate_chapters_single_fragment (output : pystr) :
  ~ occurs CHAPTER output ->
  (exists c, In c output /\ isspace c = false) ->
  split output CHAPTER = Ok [output]
  /\ chapters_of output = Ok [output]
  /\ len [output] = 1%Z
  /\ validate_chapters_default output
     = Ok (CROSS_MARK
             :: lit " Found 1 chapters. Please rewrite with 8-10 chapters.").
Proof.
  intros Hno Hc. apply not_blank_iff in Hc.
  split.
  - unfold split. change CHAPTER with (67%N :: lit "hapter") at 1.
    cbn iota beta.
    rewrite (split_loop_none _ _ (find_none _ _ Hno)). reflexivity.
  - split.
    + rewrite (chapters_of_no_separator output Hno).
      apply truthy_strip_true in Hc. rewrite Hc. reflexivity.
    + split; [reflexivity|].
      apply default_no_separator_not_blank; assumption.
Qed.

End NoSeparator.

Section NoSeparatorExamples.

(** The text "hello": no "Chapter", and 'h' is not whitespace. *)
Lemma validate_chapters_single_fragment_witness :
  split (lit "hello") CHAPTER = Ok [lit "hello"]
  /\ chapters_of (lit "hello") = Ok [lit "hello"]
  /\ len [lit "hello"] = 1%Z
  /\ validate_chapters_default (lit "hello")
     = Ok (CROSS_MARK
             :: lit " Found 1 chapters. Please rewrite with 8-10 chapters.").
Proof.
  apply (validate_chapters_single_fragment (lit "hello")).
  - apply (find_none_not_occurs (lit "hello") CHAPTER). reflexivity.
  - exists 104%N. split; [left; reflexivity|reflexivity].
Defined.

End NoSeparatorExamples.

Section Fragments.

(** C6. The candidate chapters are the pieces of the split on "Chapter" that
    are neither empty nor whitespace only, in their order; blank pieces are
    in neither the list nor its length; and a "Chapter" at the start of the
    text, or after leading whitespace only, adds no fragment. *)
Theorem chapters_of_excludes_blank (output : pystr) :
  exists parts chapters,
    split output CHAPTER = Ok parts
    /\ chapters_of output = Ok chapters
    /\ chapters = filter (fun c => negb (forallb isspace c)) parts
    /\ (forall c, In c chapters <-> In c parts /\ ~ blank c)
    /\ (len chapters + len (filter (forallb isspace) parts) = len parts)%Z
    /\ (forall ws rest,
          output = ws ++ CHAPTER ++ rest -> blank ws ->
          chapters_of output = chapters_of rest).
Proof.
  exists (split_loop output CHAPTER),
         (filter (fun c => truthy (strip c)) (split_loop output CHAPTER)).
  split; [reflexivity|]. split; [reflexivity|].
  split; [apply filter_ext, truthy_strip_not_blank|].
  split; [|split].
  - intros c. rewrite filter_In, truthy_strip_true. tauto.
  - rewrite (filter_ext _ _ truthy_strip_not_blank).
    unfold len. rewrite <- Nat2Z.inj_add.
    rewrite (Nat.add_comm _ (List.length (filter (forallb isspace) _))).
    rewrite filter_length. reflexivity.
  - intros ws rest -> Hb. rewrite !chapters_of_split_loop.
    rewrite (split_loop_after_blank ws rest Hb). cbn [filter].
    apply truthy_strip_false in Hb. rewrite Hb. reflexivity.
Qed.

(** The text "  Chapter one": the two spaces before "Chapter" are no
    fragment. *)
Lemma chapters_of_excludes_blank_witness :
  chapters_of (lit "  Chapter one") = chapters_of (lit " one").
Proof.
  destruct (chapters_of_excludes_blank (lit "  Chapter one"))
    as (parts & chapters & _ & _ & _ & _ & _ & Hlead).
  apply (Hlead (lit "  ") (lit " one")); reflexivity.
Defined.

End Fragments.

Section Totality.

(** C7, as amended. For every text and every four integer bounds of at most
    4300 decimal digits each, [validate_chapters] raises nothing and returns
    a string; and whatever the bounds, the only thing it can raise is the
    [ValueError] of rendering an int of more than 4300 digits in one of its
    two messages. *)
Theorem validate_chapters_total
    (output : pystr) (min_chapters max_chapters min_words max_words : Z) :
  (len output <= PY_SSIZE_T_MAX)%Z ->
  (renders min_chapters -> renders max_chapters ->
   renders min_words -> renders max_words ->
   exists returned,
     validate_chapters output min_chapters max_chapters min_words max_words
     = Ok returned)
  /\
  (forall e,
     validate_chapters output min_chapters max_chapters min_words max_words
     = Raise e ->
     e = DIGITS_ERROR).
Proof.
  intros Hlen. pose proof (chapters_of_split_loop output) as Hch.
  set (chapters := filter (fun c => truthy (strip c))
                     (split_loop output CHAPTER)) in Hch.
  clearbody chapters.
  destruct (within_dec min_chapters max_chapters (len chapters)) as [Hin|Hout].
  - destruct (check_words_cases min_words max_words chapters 1)
      as [[Hall _]|(pre & c & post & Heq & Hpre & Hc & _)].
    + rewrite (validate_chapters_accepted _ _ _ _ output _ Hch Hin Hall).
      split; [intros; eexists; reflexivity|discriminate].
    + rewrite Heq in Hch, Hin.
      rewrite (validate_chapters_words_rejected _ _ _ _ output pre c post
                 Hch Hin Hpre Hc).
      split.
      * intros _ _ Hmin Hmax. eexists. apply words_message_renders.
        -- apply (chapter_index_renders output Hlen pre c post Hch).
        -- apply (chapter_words_render output Hlen _ c Hch).
           apply in_or_app. right. left. reflexivity.
        -- exact Hmin.
        -- exact Hmax.
      * intros e. apply words_message_raise.
  - rewrite (validate_chapters_count_rejected _ _ _ _ output _ Hch Hout).
    split.
    + intros Hmin Hmax _ _. eexists.
      apply count_message_renders; [|assumption|assumption].
      apply (chapters_count_renders output Hlen _ Hch).
    + intros e. apply count_message_raise.
Qed.

(** The empty text with a lower chapter bound of 4301 digits: the count 0 is
    below the bound, and rendering the bound in the message of line 16
    raises. *)
Lemma validate_chapters_total_counterexample :
  validate_chapters [] (10 ^ 4300) 10 300 400 = Raise DIGITS_ERROR
  /\ forall returned,
       validate_chapters [] (10 ^ 4300) 10 300 400 <> Ok returned.
Proof.
  assert (H : validate_chapters [] (10 ^ 4300) 10 300 400 = Raise DIGITS_ERROR)
    by (vm_compute; reflexivity).
  split; [exact H|]. intros returned. rewrite H. discriminate.
Qed.

(** [sample_three] with the bounds 3-3 and 1-2. *)
Lemma validate_chapters_total_witness :
  exists returned, validate_chapters sample_three 3 3 1 2 = Ok returned.
Proof.
  apply (proj1 (validate_chapters_total sample_three 3 3 1 2
                  sample_three_length));
    apply renders_small; lia.
Defined.

End Totality.


(** ** Further properties: edge behaviour of the validator *)

Section EdgeBehaviour.

Variables min_chapters max_chapters min_words max_words : Z.

Lemma blank_no_chapter (s : pystr) : blank s -> ~ occurs CHAPTER s.
Proof.
  unfold blank. intros Hb (before & after & ->).
  rewrite !forallb_app in Hb.
  apply andb_true_iff in Hb. destruct Hb as [_ Hb].
  apply andb_true_iff in Hb. destruct Hb as [Hb _].
  discriminate Hb.
Qed.

Lemma chapters_of_blank (output : pystr) :
  blank output -> chapters_of output = Ok [].
Proof.
  intros Hb. rewrite (chapters_of_no_separator output (blank_no_chapter _ Hb)).
  apply truthy_strip_false in Hb. rewrite Hb. reflexivity.
Qed.

Lemma chapters_of_not_blank (output : pystr) (chapters : list pystr) :
  chapters_of output = Ok chapters -> Forall (fun c => ~ blank c) chapters.
Proof.
  rewrite chapters_of_split_loop. intros H. injection H as <-.
  apply Forall_forall. intros c Hc. apply filter_In in Hc.
  apply truthy_strip_true. apply Hc.
Qed.

Lemma word_count_nonneg (s : pystr) : (0 <= word_count s)%Z.
Proof. unfold word_count, len. lia. Qed.

(** What comes back without the prefix was accepted. *)
Lemma validate_chapters_unprefixed (output : pystr) (chapters : list pystr)
    (returned : pystr) :
  chapters_of output = Ok chapters ->
  validate_chapters output min_chapters max_chapters min_words max_words
  = Ok returned ->
  startswith returned REJECT_PREFIX = false ->
  returned = output
  /\ within min_chapters max_chapters (len chapters)
  /\ Forall (words_ok min_words max_words) chapters.
Proof.
  intros Hch Hret Hpre.
  destruct (validate_chapters_returned _ _ _ _ output chapters returned
              Hch Hret)
    as [(Hin & Hall & H)|[(_ & H)|(_ & pre & c & post & _ & _ & _ & H)]].
  - split; [exact H|]. split; assumption.
  - rewrite H, startswith_app in Hpre. discriminate.
  - rewrite H, startswith_app in Hpre. discriminate.
Qed.

(** X1. An empty or whitespace-only text has no fragment. It is returned
    unchanged when 0 lies within [min_chapters, max_chapters], whatever the
    word bounds are, since the loop over the fragments has nothing to visit;
    otherwise, the two chapter bounds having at most 4300 digits, the
    message citing 0 chapters is returned. *)
Theorem validate_chapters_blank_text (output : pystr) :
  blank output ->
  chapters_of output = Ok []
  /\ (within min_chapters max_chapters 0 ->
      validate_chapters output min_chapters max_chapters min_words max_words
      = Ok output)
  /\ (~ within min_chapters max_chapters 0 ->
      renders min_chapters -> renders max_chapters ->
      validate_chapters output min_chapters max_chapters min_words max_words
      = Ok (REJECT_PREFIX ++ count_template 0 min_chapters max_chapters)).
Proof.
  intros Hb. pose proof (chapters_of_blank output Hb) as Hch.
  split; [exact Hch|]. split.
  - intros H0.
    apply (validate_chapters_accepted _ _ _ _ output [] Hch H0). constructor.
  - intros H0 Hmin Hmax.
    rewrite (validate_chapters_count_rejected _ _ _ _ output [] Hch H0).
    apply count_message_renders; [|assumption|assumption].
    apply renders_small. unfold len. cbn. lia.
Qed.

(** X2. Inverted bounds accept nothing that has a fragment. The bounds cited
    having at most 4300 digits: with [max_chapters < min_chapters] every
    text gets the count message; with [max_words < min_words] and the count
    within its bounds, a text with at least one fragment gets the word
    message for its first fragment. *)
Theorem validate_chapters_inverted_bounds
    (output : pystr) (chapters : list pystr) :
  chapters_of output = Ok chapters ->
  (len output <= PY_SSIZE_T_MAX)%Z ->
  ((max_chapters < min_chapters)%Z ->
   renders min_chapters -> renders max_chapters ->
   validate_chapters output min_chapters max_chapters min_words max_words
   = Ok (REJECT_PREFIX
           ++ count_template (len chapters) min_chapters max_chapters))
  /\
  ((max_words < min_words)%Z ->
   renders min_words -> renders max_words ->
   within min_chapters max_chapters (len chapters) ->
   forall first rest, chapters = first :: rest ->
   validate_chapters output min_chapters max_chapters min_words max_words
   = Ok (REJECT_PREFIX
           ++ words_template 1 (word_count first) min_words max_words)).
Proof.
  intros Hch Hlen. split.
  - intros Hinv Hmin Hmax.
    rewrite (validate_chapters_count_rejected _ _ _ _ output chapters Hch)
      by (unfold within; lia).
    apply count_message_renders; [|assumption|assumption].
    apply (chapters_count_renders output Hlen chapters Hch).
  - intros Hinv Hmin Hmax Hin first rest ->.
    rewrite (validate_chapters_words_rejected _ _ _ _ output [] first rest
               Hch Hin (Forall_nil _))
      by (unfold words_ok, within; lia).
    apply words_message_renders.
    + apply renders_small. unfold len. cbn. lia.
    + apply (chapter_words_render output Hlen _ first Hch). left. reflexivity.
    + exact Hmin.
    + exact Hmax.
Qed.

(** X3. Every fragment holds at least one word, so a lower word bound of 1 or
    less rejects nothing: with the count within its bounds and no fragment
    above [max_words], the text is returned unchanged. *)
Theorem validate_chapters_fragments_have_words
    (output : pystr) (chapters : list pystr) :
  chapters_of output = Ok chapters ->
  Forall (fun c => (1 <= word_count c)%Z) chapters
  /\ (within min_chapters max_chapters (len chapters) ->
      (min_words <= 1)%Z ->
      Forall (fun c => (word_count c <= max_words)%Z) chapters ->
      validate_chapters output min_chapters max_chapters min_words max_words
      = Ok output).
Proof.
  intros Hch.
  assert (Hpos : Forall (fun c => (1 <= word_count c)%Z) chapters).
  { apply (Forall_impl _ (P := fun c => ~ blank c)).
    - intros c Hc. pose proof (word_count_nonneg c) as H0.
      destruct (Z.eq_dec (word_count c) 0) as [E|E]; [|lia].
      apply word_count_zero_iff in E. contradiction.
    - apply chapters_of_not_blank with (output := output). exact Hch. }
  split; [exact Hpos|].
  intros Hin Hmin Hmax.
  apply (validate_chapters_accepted _ _ _ _ output chapters Hch Hin).
  rewrite Forall_forall in *. intros c Hc. unfold words_ok, within.
  specialize (Hpos c Hc). specialize (Hmax c Hc). lia.
Qed.

End EdgeBehaviour.

Section Widening.

(** X4. Widening the bounds keeps an accepted text accepted: if a text that
    does not itself begin with the cross mark and a space is returned
    unchanged, it is returned unchanged for every wider pair of ranges. *)
Theorem validate_chapters_widen
    (output : pystr)
    (min_chapters max_chapters min_words max_words : Z)
    (min_chapters' max_chapters' min_words' max_words' : Z) :
  startswith output REJECT_PREFIX = false ->
  validate_chapters output min_chapters max_chapters min_words max_words
  = Ok output ->
  (min_chapters' <= min_chapters)%Z -> (max_chapters <= max_chapters')%Z ->
  (min_words' <= min_words)%Z -> (max_words <= max_words')%Z ->
  validate_chapters output min_chapters' max_chapters' min_words' max_words'
  = Ok output.
Proof.
  intros Hpre Hret H1 H2 H3 H4.
  pose proof (chapters_of_split_loop output) as Hch.
  destruct (validate_chapters_unprefixed _ _ _ _ output _ output Hch Hret Hpre)
    as (_ & Hin & Hall).
  apply (validate_chapters_accepted _ _ _ _ output _ Hch).
  - unfold within in *. lia.
  - apply (Forall_impl _ (P := words_ok min_words max_words)); [|exact Hall].
    intros c Hc. unfold words_ok, within in *. lia.
Qed.

End Widening.

(** ** Further properties: the split on a separator *)


Section SplitRoundTrip.

(** X7. [s.split(sep)] loses and invents nothing: when it returns, it returns
    at least one piece, the pieces joined with [sep] between them are [s]
    again, and no piece holds an occurrence of [sep]. *)
Theorem split_join_round_trip (s sep : pystr) (parts : list pystr) :
  split s sep = Ok parts ->
  parts <> []
  /\ join sep parts = s
  /\ Forall (fun p => ~ occurs sep p) parts.
Proof.
  intros H.
  assert (Hsep : sep <> []) by (intros ->; discriminate H).
  rewrite (split_nonempty_sep sep Hsep) in H. injection H as <-.
  split; [apply split_loop_join; exact Hsep|].
  split; [apply split_loop_join; exact Hsep|].
  apply split_loop_pieces. exact Hsep.
Qed.

(** "a, b,, c" split on ", ". *)
Lemma split_join_round_trip_witness :
  [lit "a"; lit "b,"; lit "c"] <> []
  /\ join (lit ", ") [lit "a"; lit "b,"; lit "c"] = lit "a, b,, c"
  /\ Forall (fun p => ~ occurs (lit ", ") p) [lit "a"; lit "b,"; lit "c"].
Proof.
  apply (split_join_round_trip (lit "a, b,, c") (lit ", ")). reflexivity.
Defined.

End SplitRoundTrip.

Section ChaptersPieces.

(** X8. No candidate chapter holds the token "Chapter", and none is blank. *)
Theorem chapters_of_hold_no_separator
    (output : pystr) (chapters : list pystr) :
  chapters_of output = Ok chapters ->
  Forall (fun c => ~ occurs CHAPTER c /\ ~ blank c) chapters.
Proof.
  intros Hch. pose proof (chapters_of_not_blank output chapters Hch) as Hnb.
  rewrite chapters_of_split_loop in Hch. injection Hch as <-.
  rewrite Forall_forall in *. intros c Hc. split; [|apply Hnb; exact Hc].
  apply filter_In in Hc. destruct Hc as [Hc _].
  pose proof (split_loop_pieces CHAPTER CHAPTER_not_nil output) as Hp.
  rewrite Forall_forall in Hp. apply Hp. exact Hc.
Qed.

End ChaptersPieces.

(** ** Further properties: labelled chapters *)

Section Labelled.

(** An occurrence of "Chapter" cannot start inside a non-empty stretch that
    holds none and run over into a following "Chapter": the token does not
    overlap itself. *)
Lemma no_early_start (pre rest : pystr) :
  ~ occurs CHAPTER pre ->
  pre <> [] ->
  startswith (pre ++ CHAPTER ++ rest) CHAPTER = false.
Proof.
  intros Hno Hne.
  destruct (startswith (pre ++ CHAPTER ++ rest) CHAPTER) eqn:E; [|reflexivity].
  exfalso.
  destruct pre as [|c0 [|c1 [|c2 [|c3 [|c4 [|c5 [|c6 pre']]]]]]];
    [congruence| | | | | | |];
    change CHAPTER with [67; 104; 97; 112; 116; 101; 114]%N in E;
    cbn [app startswith] in E;
    repeat (apply andb_true_iff in E; destruct E as [? E]);
    try (multimatch goal with
         | H : _ = true |- _ => solve [vm_compute in H; discriminate H]
         end).
  apply Hno. exists [], pre'.
  repeat match goal with H : (_ =? _)%N = true |- _ =>
    apply N.eqb_eq in H; subst end.
  reflexivity.
Qed.

Lemma find_after_prefix (pre rest : pystr) :
  ~ occurs CHAPTER pre ->
  find (pre ++ CHAPTER ++ rest) CHAPTER = Some (List.length pre).
Proof.
  induction pre as [|c pre IH]; intros Hno.
  - apply find_here. apply (startswith_app CHAPTER rest).
  - cbn [app List.length]. rewrite find_later.
    + rewrite IH; [reflexivity|].
      intros H. apply Hno. apply occurs_cons. exact H.
    + apply (no_early_start (c :: pre) rest Hno). discriminate.
Qed.

Lemma split_loop_after_prefix (pre rest : pystr) :
  ~ occurs CHAPTER pre ->
  split_loop (pre ++ CHAPTER ++ rest) CHAPTER = pre :: split_loop rest CHAPTER.
Proof.
  intros Hno.
  rewrite (split_loop_some _ _ _ CHAPTER_not_nil (find_after_prefix pre rest Hno)).
  rewrite firstn_app, Nat.sub_diag, firstn_all. cbn [firstn]. rewrite app_nil_r.
  rewrite app_assoc, <- length_app, skipn_app, skipn_all, Nat.sub_diag.
  reflexivity.
Qed.

Lemma split_loop_bodies (body : pystr) (bodies : list pystr) :
  Forall (fun b => ~ occurs CHAPTER b) (body :: bodies) ->
  split_loop (body ++ manuscript bodies) CHAPTER = body :: bodies.
Proof.
  revert body. induction bodies as [|next bodies IH]; intros body Hall.
  - unfold manuscript. cbn [List.map List.concat]. rewrite app_nil_r.
    apply split_loop_none. apply find_none. apply (Forall_inv Hall).
  - unfold manuscript. cbn [List.map List.concat].
    rewrite <- (app_assoc CHAPTER).
    rewrite (split_loop_after_prefix body _ (Forall_inv Hall)).
    f_equal. apply IH. apply (Forall_inv_tail Hall).
Qed.

(** X9. Text before the first "Chapter" that is not blank, a title or an
    introduction, is itself a candidate chapter, ahead of the others. *)
Theorem chapters_of_preamble (pre rest : pystr) (tail : list pystr) :
  ~ occurs CHAPTER pre ->
  ~ blank pre ->
  chapters_of rest = Ok tail ->
  chapters_of (pre ++ CHAPTER ++ rest) = Ok (pre :: tail).
Proof.
  intros Hno Hnb. rewrite !chapters_of_split_loop.
  rewrite (split_loop_after_prefix pre rest Hno). cbn [filter].
  apply truthy_strip_true in Hnb. rewrite Hnb.
  intros H. injection H as <-. reflexivity.
Qed.

(** "Contents " before two labelled chapters: three candidate chapters. *)
Lemma chapters_of_preamble_witness :
  chapters_of (lit "Contents " ++ CHAPTER ++ lit " a b Chapter c d")
  = Ok [lit "Contents "; lit " a b "; lit " c d"].
Proof.
  apply (chapters_of_preamble (lit "Contents ") (lit " a b Chapter c d")).
  - apply find_none_not_occurs. reflexivity.
  - unfold blank. cbn. discriminate.
  - reflexivity.
Defined.

Lemma chapters_of_bodies (bodies : list pystr) :
  Forall (fun b => ~ occurs CHAPTER b) bodies ->
  chapters_of (manuscript bodies)
  = Ok (filter (fun b => negb (forallb isspace b)) bodies).
Proof.
  intros Hall. rewrite chapters_of_split_loop. f_equal.
  rewrite (filter_ext _ _ truthy_strip_not_blank).
  destruct bodies as [|body bodies].
  - reflexivity.
  - unfold manuscript. cbn [List.map List.concat].
    rewrite <- (app_assoc CHAPTER).
    change (List.concat (List.map (fun b => CHAPTER ++ b) bodies))
      with (manuscript bodies).
    pose proof (split_loop_after_blank [] (body ++ manuscript bodies) eq_refl)
      as Hfirst.
    cbn [app] in Hfirst. rewrite Hfirst.
    rewrite (split_loop_bodies body bodies Hall). reflexivity.
Qed.

(** X10. In a text made of bodies each preceded by the label "Chapter", no body
    holding the token itself, the candidate chapters are the bodies that are
    not blank, in their order. *)
Theorem chapters_of_manuscript (bodies : list pystr) :
  Forall (fun b => ~ occurs CHAPTER b) bodies ->
  chapters_of (manuscript bodies)
  = Ok (filter (fun b => negb (forallb isspace b)) bodies)
  /\ Forall (fun b => ~ blank b)
       (filter (fun b => negb (forallb isspace b)) bodies).
Proof.
  intros Hall. split; [apply chapters_of_bodies; exact Hall|].
  apply Forall_forall. intros b Hb. apply filter_In in Hb.
  destruct Hb as [_ Hb]. unfold blank.
  destruct (forallb isspace b); [discriminate Hb|discriminate].
Qed.

(** Bodies " a b", "  " and " c": the blank one is no chapter. *)
Lemma chapters_of_manuscript_witness :
  chapters_of (manuscript [lit " a b "; lit "  "; lit " c"])
  = Ok [lit " a b "; lit " c"]
  /\ Forall (fun b => ~ blank b) [lit " a b "; lit " c"].
Proof.
  apply (chapters_of_manuscript [lit " a b "; lit "  "; lit " c"]).
  repeat constructor; apply find_none_not_occurs; reflexivity.
Defined.

(** X11. A text made of bodies each preceded by the label "Chapter", no body
    holding the token itself, is returned unchanged when the number of bodies
    lies within the chapter bounds, every body's word count lies within the
    word bounds, and the lower word bound is at least 1. *)
Theorem validate_chapters_manuscript
    (bodies : list pystr)
    (min_chapters max_chapters min_words max_words : Z) :
  Forall (fun b => ~ occurs CHAPTER b) bodies ->
  within min_chapters max_chapters (len bodies) ->
  (1 <= min_words)%Z ->
  Forall (fun b => within min_words max_words (word_count b)) bodies ->
  validate_chapters (manuscript bodies)
    min_chapters max_chapters min_words max_words
  = Ok (manuscript bodies).
Proof.
  intros Hno Hin Hmin Hwords.
  assert (Hkeep : filter (fun b => negb (forallb isspace b)) bodies = bodies).
  { apply forallb_filter_id. apply forallb_forall. intros b Hb.
    rewrite Forall_forall in Hwords. specialize (Hwords b Hb).
    destruct (forallb isspace b) eqn:E; [|reflexivity].
    apply word_count_zero_iff in E. unfold within in Hwords. lia. }
  pose proof (chapters_of_bodies bodies Hno) as Hch.
  rewrite Hkeep in Hch.
  apply (validate_chapters_accepted _ _ _ _ _ bodies Hch Hin Hwords).
Qed.

(** Two labelled chapters of two words each, with bounds 2-2 and 2-2. *)
Lemma validate_chapters_manuscript_witness :
  validate_chapters (manuscript [lit " a b "; lit " c d"]) 2 2 2 2
  = Ok (manuscript [lit " a b "; lit " c d"]).
Proof.
  apply validate_chapters_manuscript.
  - repeat constructor; apply find_none_not_occurs; reflexivity.
  - unfold within, len. cbn. lia.
  - lia.
  - repeat constructor; discriminate.
Defined.

End Labelled.

(** ** Further properties: a rejection message given back to the validator *)

Section Feedback.

Lemma uint_digits (u : Decimal.uint) (c : codepoint) :
  In c (lit (NilEmpty.string_of_uint u)) -> (48 <= c <= 57)%N.
Proof.
  induction u as [|u IH|u IH|u IH|u IH|u IH|u IH|u IH|u IH|u IH|u IH];
    cbn; intros H; try contradiction;
    (destruct H as [<-|H]; [lia|apply IH; exact H]).
Qed.

(** The rendering of an int holds digits and, in front, at most a minus
    sign. *)
Lemma decimal_chars (n : Z) (c : codepoint) :
  In c (decimal n) -> c = 45%N \/ (48 <= c <= 57)%N.
Proof.
  unfold decimal, NilZero.string_of_int, NilZero.string_of_uint.
  destruct (Z.to_int n) as [u|u].
  - destruct u; cbn [lit]; intros H;
      try (right; apply (uint_digits _ c H)).
    cbn in H. destruct H as [<-|[]]. right. lia.
  - change (lit (String "-" ?s)) with (45%N :: lit s).
    intros [<-|H]; [left; reflexivity|].
    destruct u; try (right; apply (uint_digits _ c H)).
    cbn in H. destruct H as [<-|[]]. right. lia.
Qed.

Lemma decimal_no_C (n : Z) : ~ In 67%N (decimal n).
Proof.
  intros H. apply decimal_chars in H. destruct H as [H|H]; [discriminate|lia].
Qed.

Lemma no_C_no_chapter (s : pystr) : ~ In 67%N s -> ~ occurs CHAPTER s.
Proof.
  intros Hno (before & after & ->). apply Hno.
  apply in_or_app. right. left. reflexivity.
Qed.

Ltac no_C_in_literal H :=
  cbn in H; repeat (destruct H as [H|H]; [discriminate H|]); contradiction.

Lemma count_template_no_C (count lo hi : Z) :
  ~ In 67%N (count_template count lo hi).
Proof.
  unfold count_template. intros H.
  repeat (apply in_app_or in H; destruct H as [H|H]);
    try (apply decimal_no_C in H; contradiction);
    no_C_in_literal H.
Qed.

Lemma words_message_tail_no_C (index wordCount lo hi : Z) :
  ~ In 67%N (words_message_tail index wordCount lo hi).
Proof.
  unfold words_message_tail. intros H.
  repeat (apply in_app_or in H; destruct H as [H|H]);
    try (apply decimal_no_C in H; contradiction);
    no_C_in_literal H.
Qed.

Lemma prefixed_not_blank (s : pystr) : ~ blank (REJECT_PREFIX ++ s).
Proof.
  unfold blank, REJECT_PREFIX. cbn [app forallb].
  change (isspace CROSS_MARK) with false. discriminate.
Qed.

Lemma chapters_of_count_message (count lo hi : Z) :
  chapters_of (REJECT_PREFIX ++ count_template count lo hi)
  = Ok [REJECT_PREFIX ++ count_template count lo hi].
Proof.
  rewrite chapters_of_no_separator.
  - rewrite (proj2 (truthy_strip_true _) (prefixed_not_blank _)). reflexivity.
  - apply no_C_no_chapter. intros H. apply in_app_or in H.
    destruct H as [H|H]; [no_C_in_literal H|].
    apply count_template_no_C in H. exact H.
Qed.

Lemma words_message_tail_not_blank (index wordCount lo hi : Z) :
  ~ blank (words_message_tail index wordCount lo hi).
Proof.
  unfold blank, words_message_tail. rewrite !forallb_app. intros H.
  apply andb_true_iff in H. destruct H as [_ H].
  apply andb_true_iff in H. destruct H as [_ H].
  apply andb_true_iff in H. destruct H as [H _].
  vm_compute in H. discriminate H.
Qed.

Lemma chapters_of_words_message (index wordCount lo hi : Z) :
  chapters_of (REJECT_PREFIX ++ words_template index wordCount lo hi)
  = Ok [REJECT_PREFIX; words_message_tail index wordCount lo hi].
Proof.
  change (REJECT_PREFIX ++ words_template index wordCount lo hi)
    with (REJECT_PREFIX ++ CHAPTER ++ words_message_tail index wordCount lo hi).
  rewrite chapters_of_split_loop, split_loop_after_prefix.
  - rewrite split_loop_none.
    + cbn [filter].
      rewrite (proj2 (truthy_strip_true _) (words_message_tail_not_blank _ _ _ _)).
      reflexivity.
    + apply find_none, no_C_no_chapter, words_message_tail_no_C.
  - apply no_C_no_chapter. intros H. no_C_in_literal H.
Qed.

(** X12. Neither rejection message passes for a manuscript: given back to the
    validator, the count message is one fragment and the word message two,
    so unless the chapter bounds allow 1, respectively 2, chapters the
    answer, the two chapter bounds having at most 4300 digits, is the count
    message citing 1, respectively 2, chapters. For a count of 1 the message
    comes back unchanged although it is rejected. *)
Theorem validate_chapters_on_rejection
    (min_chapters max_chapters min_words max_words : Z)
    (count index wordCount lo hi : Z) :
  renders min_chapters -> renders max_chapters ->
  (~ within min_chapters max_chapters 1 ->
   validate_chapters (REJECT_PREFIX ++ count_template count lo hi)
     min_chapters max_chapters min_words max_words
   = Ok (REJECT_PREFIX ++ count_template 1 min_chapters max_chapters))
  /\
  (~ within min_chapters max_chapters 2 ->
   validate_chapters (REJECT_PREFIX ++ words_template index wordCount lo hi)
     min_chapters max_chapters min_words max_words
   = Ok (REJECT_PREFIX ++ count_template 2 min_chapters max_chapters)).
Proof.
  intros Hmin Hmax. split; intros Hout.
  - rewrite (validate_chapters_count_rejected _ _ _ _ _ _
               (chapters_of_count_message count lo hi) Hout).
    apply count_message_renders; [|assumption|assumption].
    apply renders_small. unfold len. cbn. lia.
  - rewrite (validate_chapters_count_rejected _ _ _ _ _ _
               (chapters_of_words_message index wordCount lo hi) Hout).
    apply count_message_renders; [|assumption|assumption].
    apply renders_small. unfold len. cbn. lia.
Qed.

(** With the bounds 8-10: the message citing 1 chapter is its own answer, and
    a word message is answered by the message citing 2 chapters. *)
Lemma validate_chapters_on_rejection_witness :
  validate_chapters
    (CROSS_MARK :: lit " Found 1 chapters. Please rewrite with 8-10 chapters.")
    8 10 300 400
  = Ok (CROSS_MARK
          :: lit " Found 1 chapters. Please rewrite with 8-10 chapters.")
  /\ validate_chapters
       (CROSS_MARK
          :: lit " Chapter 3 has 250 words. Please rewrite with 300-400 words.")
       8 10 300 400
     = Ok (CROSS_MARK
             :: lit " Found 2 chapters. Please rewrite with 8-10 chapters.").
Proof.
  destruct (validate_chapters_on_rejection 8 10 300 400 1 3 250 8 10
              ltac:(apply renders_small; lia) ltac:(apply renders_small; lia))
    as [Hcount _].
  destruct (validate_chapters_on_rejection 8 10 300 400 1 3 250 300 400
              ltac:(apply renders_small; lia) ltac:(apply renders_small; lia))
    as [_ Hwords].
  split.
  - apply Hcount. unfold within. lia.
  - apply Hwords. unfold within. lia.
Defined.

End Feedback.

(** ** Examples for the further properties *)

Section FurtherExamples.

(** A text of two spaces and a line feed: accepted when 0 chapters are
    allowed, although no word bound could hold; the message citing 0
    chapters with the default bounds. *)
Lemma validate_chapters_blank_text_witness :
  validate_chapters (lit "  " ++ [10%N]) 0 3 300 400
  = Ok (lit "  " ++ [10%N])
  /\ validate_chapters (lit "  " ++ [10%N]) 8 10 300 400
     = Ok (CROSS_MARK
             :: lit " Found 0 chapters. Please rewrite with 8-10 chapters.").
Proof.
  destruct (validate_chapters_blank_text 0 3 300 400 (lit "  " ++ [10%N])
              eq_refl) as (_ & Haccept & _).
  destruct (validate_chapters_blank_text 8 10 300 400 (lit "  " ++ [10%N])
              eq_refl) as (_ & _ & Hreject).
  split.
  - apply Haccept. unfold within. lia.
  - apply Hreject.
    + unfold within. lia.
    + apply renders_small. lia.
    + apply renders_small. lia.
Defined.

(** [sample_three] with the chapter bounds 5-4, and with the chapter bounds
    3-3 and the word bounds 5-2. *)
Lemma validate_chapters_inverted_bounds_witness :
  validate_chapters sample_three 5 4 1 9
  = Ok (CROSS_MARK
          :: lit " Found 3 chapters. Please rewrite with 5-4 chapters.")
  /\ validate_chapters sample_three 3 3 5 2
     = Ok (CROSS_MARK
             :: lit " Chapter 1 has 2 words. Please rewrite with 5-2 words.").
Proof.
  destruct (validate_chapters_inverted_bounds 5 4 1 9 sample_three
              sample_three_chapters eq_refl sample_three_length)
    as [Hcount _].
  destruct (validate_chapters_inverted_bounds 3 3 5 2 sample_three
              sample_three_chapters eq_refl sample_three_length)
    as [_ Hwords].
  split.
  - apply Hcount; [lia|apply renders_small; lia..].
  - apply (Hwords ltac:(lia) ltac:(apply renders_small; lia)
             ltac:(apply renders_small; lia)
             ltac:(unfold within, len; cbn; lia)
             (lit " a b ") [lit " c d e "; lit " f g h"] eq_refl).
Defined.

(** [sample_three] with the word bounds -5 to 3. *)
Lemma validate_chapters_fragments_have_words_witness :
  Forall (fun c => (1 <= word_count c)%Z) sample_three_chapters
  /\ validate_chapters sample_three 3 3 (-5) 3 = Ok sample_three.
Proof.
  destruct (validate_chapters_fragments_have_words 3 3 (-5) 3 sample_three
              sample_three_chapters eq_refl) as [Hpos Haccept].
  split; [exact Hpos|].
  apply Haccept.
  - unfold within, len. cbn. lia.
  - lia.
  - repeat constructor; discriminate.
Defined.

(** Two chapters of two words, accepted with 2-2 and 2-2, hence with 1-3 and
    1-3. *)
Lemma validate_chapters_widen_witness :
  validate_chapters (book 2 2) 1 3 1 3 = Ok (book 2 2).
Proof.
  apply (validate_chapters_widen (book 2 2) 2 2 2 2 1 3 1 3);
    try reflexivity; lia.
Defined.

(** The fragments of [sample_three]. *)
Lemma chapters_of_hold_no_separator_witness :
  Forall (fun c => ~ occurs CHAPTER c /\ ~ blank c) sample_three_chapters.
Proof.
  apply (chapters_of_hold_no_separator sample_three). reflexivity.
Defined.

End FurtherExamples.
